(** * The Portkey adapter of langchain/llms/portkey.py

    A shallow embedding of the [Portkey] class: the constructor, [add_llms],
    [_call], the [_client] property and the generator [_stream].

    The adapter is glue over the external [portkey] module, so the embedding
    keeps explicit what the Python code shares and mutates:
    - the [portkey] module object (its attributes [api_key], [base_url],
      [mode], [config]) is one shared cell of the world, reached from every
      adapter through [self._portkey];
    - adapters live in a heap and are named by address, so that a method
      mutates [self] in place and two adapters can share the module;
    - what the gateway answers is not this file's business: the world
      carries it as an oracle, and every theorem quantifies over it;
    - a log records, in order, every attribute written on the module, every
      [Completions.create] call, every chunk yielded and every callback. *)

From Stdlib Require Import ZArith.
From stdpp Require Import base option list strings gmap.

(** ** Values of the external library *)

(** [portkey.LLMOptions]; the attributes are those the docstring of
    [add_llms] lists (lines 112-123) and the one of the class example
    ([virtual_key]).  The float-valued ones ([temperature], [weight]) and
    [metadata] are never read by the adapter and are left out. *)
Module LLMOptions.
Record t := mk {
  provider : option string;
  virtual_key : option string;
  model : string;
  max_tokens : option Z;
  max_retries : Z;
  trace_id : option string;
  cache : option bool
}.
End LLMOptions.

(** [portkey.Config], as the adapter builds it: [Config(llms=self.llms)]. *)
Module Config.
Record t := mk { llms : list LLMOptions.t }.
End Config.

(** A Python value passed through [**kwargs]. *)
Inductive pyval :=
| PyNone
| PyBool (b : bool)
| PyInt (z : Z)
| PyStr (s : string).

(** The attributes of the [portkey] module object the adapter writes.
    [None] is Python's [None] (or an attribute nobody has set yet). *)
Module portkey.
Record t := mk {
  api_key : option string;
  base_url : option string;
  mode : option string;
  config : option Config.t
}.

Definition set_api_key (v : string) (m : t) : t :=
  {| api_key := Some v; base_url := base_url m; mode := mode m;
     config := config m |}.
Definition set_base_url (v : string) (m : t) : t :=
  {| api_key := api_key m; base_url := Some v; mode := mode m;
     config := config m |}.
Definition set_mode (v : string) (m : t) : t :=
  {| api_key := api_key m; base_url := base_url m; mode := Some v;
     config := config m |}.
Definition set_config (c : Config.t) (m : t) : t :=
  {| api_key := api_key m; base_url := base_url m; mode := mode m;
     config := Some c |}.
End portkey.

(** One choice of a response, and a response: [response.choices[0].text]. *)
Record Choice := { text : option string }.
Record PortkeyResponse := { choices : list Choice }.

(** The keyword arguments [Completions.create] receives. *)
Record Request := {
  prompt : string;
  stream : bool;
  stop : option (list string);
  kwargs : gmap string pyval
}.

(** What [Completions.create] returns: one response when [stream=False],
    the tokens of the stream, in the order received, when [stream=True]. *)
Definition Response (stream : bool) : Type :=
  if stream then list PortkeyResponse else PortkeyResponse.

(** ** Values of the framework *)

Record GenerationChunk := { chunk_text : string }.

(** [CallbackManagerForLLMRun]: the adapter only calls its
    [on_llm_new_token]; an instance has no [__bool__] or [__len__], so it
    is truthy, and [if run_manager:] tests for [None]. *)
Record CallbackManagerForLLMRun := { run_id : string }.

(** ** Exceptions *)

#[warnings="-register-all"]
Inductive exn :=
| ImportError (msg : string) (cause : option exn) (* [raise .. from cause] *)
| IndexError (msg : string)
| TypeError (keyword : string)   (* a call given [keyword] twice *)
| AttributeError (name : string) (* an attribute that is not set *)
| ReferenceError (msg : string)  (* an address that names no adapter *)
| PortkeyError (msg : string).   (* raised inside the gateway client *)

Inductive outcome (A : Type) :=
| Return (a : A)
| Raise (e : exn).
Arguments Return {A} a.
Arguments Raise {A} e.

(** ** The adapter object *)

(** [self._portkey]: a reference to the one [portkey] module object. *)
Inductive modref := portkey_module.

(** An adapter, as a program holds it once its constructor has returned:
    every attribute is set. *)
Module Portkey.
Record t := mk {
  mode : option string;
  model : option string;
  llm : gmap string pyval;
  streaming : bool;
  llms : list LLMOptions.t;
  _portkey : modref
}.

Definition set_model (v : option string) (o : t) : t :=
  {| mode := mode o; model := v; llm := llm o; streaming := streaming o;
     llms := llms o; _portkey := _portkey o |}.
Definition set_llms (v : list LLMOptions.t) (o : t) : t :=
  {| mode := mode o; model := model o; llm := llm o; streaming := streaming o;
     llms := v; _portkey := _portkey o |}.
End Portkey.

(** An adapter while its constructor runs.  [super().__init__()] gives the
    fields their declared defaults (lines 64-72); the private attribute
    [_portkey] (line 74, [PrivateAttr()] with no default) is not set until
    line 97. *)
Module Unbuilt.
Record t := mk {
  mode : option string;
  model : option string;
  llm : gmap string pyval;
  streaming : bool;
  llms : list LLMOptions.t;
  _portkey : option modref
}.

Definition set_mode (v : option string) (o : t) : t :=
  {| mode := v; model := model o; llm := llm o; streaming := streaming o;
     llms := llms o; _portkey := _portkey o |}.
Definition set_model (v : option string) (o : t) : t :=
  {| mode := mode o; model := v; llm := llm o; streaming := streaming o;
     llms := llms o; _portkey := _portkey o |}.
Definition set__portkey (v : modref) (o : t) : t :=
  {| mode := mode o; model := model o; llm := llm o; streaming := streaming o;
     llms := llms o; _portkey := Some v |}.

(** What [super().__init__()] leaves. *)
Definition defaults : t :=
  {| mode := None; model := Some "gpt-3.5-turbo"; llm := ∅;
     streaming := false; llms := []; _portkey := None |}.

(** The adapter the constructor hands over, when [_portkey] was set. *)
Definition built (o : t) : option Portkey.t :=
  match _portkey o with
  | Some pk =>
      Some {| Portkey.mode := mode o; Portkey.model := model o;
              Portkey.llm := llm o; Portkey.streaming := streaming o;
              Portkey.llms := llms o; Portkey._portkey := pk |}
  | None => None
  end.
End Unbuilt.

(** ** The world *)

Inductive Event :=
| EvSetApiKey (v : string)                    (* portkey.api_key = v *)
| EvSetBaseUrl (v : string)                   (* portkey.base_url = v *)
| EvSetMode (v : string)                      (* portkey.mode = v *)
| EvSetConfig (c : Config.t)                  (* portkey.config = c *)
| EvCreate (seen : portkey.t) (req : Request) (* Completions.create(..) *)
| EvYield (chunk : GenerationChunk)           (* yield chunk *)
| EvOnLLMNewToken (rm : CallbackManagerForLLMRun) (token : string)
                  (chunk : GenerationChunk).  (* on_llm_new_token(..) *)

(** Adapters are named by their position in the heap. *)
Abbreviation addr := nat (only parsing).

Record World := {
  (** [Some m]: importing from [portkey] raises [ImportError(m)]. *)
  import_portkey : option string;
  (** The [portkey] module object. *)
  module : portkey.t;
  (** The adapters, by address. *)
  heap : list Portkey.t;
  (** The gateway: what [Completions.create] does with a request, given
      the module attributes it finds; [inl m] is an exception of its own. *)
  gateway : portkey.t → ∀ req : Request, string + Response (stream req);
  (** Everything observable that happened, oldest first. *)
  events : list Event
}.

Definition with_module (m : portkey.t) (w : World) : World :=
  {| import_portkey := import_portkey w; module := m; heap := heap w;
     gateway := gateway w; events := events w |}.
Definition with_heap (h : list Portkey.t) (w : World) : World :=
  {| import_portkey := import_portkey w; module := module w; heap := h;
     gateway := gateway w; events := events w |}.
Definition with_events (l : list Event) (w : World) : World :=
  {| import_portkey := import_portkey w; module := module w; heap := heap w;
     gateway := gateway w; events := l |}.
Definition with_import (i : option string) (w : World) : World :=
  {| import_portkey := i; module := module w; heap := heap w;
     gateway := gateway w; events := events w |}.

(** ** The monad of Python code: state, and exceptions that keep the state *)

Definition Py (A : Type) : Type := World → outcome A * World.

#[global] Instance Py_ret : MRet Py := λ A a w, (Return a, w).
#[global] Instance Py_bind : MBind Py := λ A B f m w,
  match m w with
  | (Return a, w') => f a w'
  | (Raise e, w') => (Raise e, w')
  end.

Definition raise {A} (e : exn) : Py A := λ w, (Raise e, w).

(** [try: body except ImportError as exc: handler(exc)] *)
Definition try_except_ImportError {A} (body : Py A) (handler : exn → Py A)
  : Py A := λ w,
  match body w with
  | (Raise (ImportError m c), w') => handler (ImportError m c) w'
  | r => r
  end.

Definition emit (e : Event) : Py () := λ w,
  (Return (), with_events (events w ++ [e]) w).

(** [import portkey] and [from portkey import name].  The package exports
    the names the adapter asks for ([LLMOptions], [Config]), so each of
    these statements fails exactly when the package cannot be imported. *)
Definition import_from_portkey (name : string) : Py () := λ w,
  match import_portkey w with
  | None => (Return (), w)
  | Some m => (Raise (ImportError m None), w)
  end.

(** Reading and writing the fields of the adapter at [self]. *)
Definition getattr {A} (self : addr) (field : Portkey.t → A) : Py A := λ w,
  match heap w !! self with
  | Some o => (Return (field o), w)
  | None => (Raise (ReferenceError "no adapter at this address"), w)
  end.

Definition setattr (self : addr) (set : Portkey.t → Portkey.t) : Py () := λ w,
  match heap w !! self with
  | Some o => (Return (), with_heap (<[self := set o]> (heap w)) w)
  | None => (Raise (ReferenceError "no adapter at this address"), w)
  end.

(** [l[0]] *)
Definition index0 {A} (l : list A) : Py A :=
  match l with
  | x :: _ => mret x
  | [] => raise (IndexError "list index out of range")
  end.

(** Writing the attributes of the module behind a reference. *)
Definition module_setattr (pk : modref) (e : Event)
    (set : portkey.t → portkey.t) : Py () := λ w,
  (Return (), with_events (events w ++ [e]) (with_module (set (module w)) w)).

(** ** The adapter's code *)

(** Lines 26-28. *)
Definition IMPORT_ERROR_MESSAGE : string :=
  "Portkey is not installed.Please install it with `pip install portkey-ai`.".

(** The guard of lines 83-86, 129-132, 162-165 and 173-176. *)
Definition guarded_import (name : string) : Py () :=
  try_except_ImportError (import_from_portkey name)
    (λ exc, raise (ImportError IMPORT_ERROR_MESSAGE (Some exc))).

(** The constructor returns: the adapter enters the heap, at the next free
    address.  Nothing but the constructor can reach the object before that.
    An adapter whose [_portkey] was left unset would fail at its first
    request (an unset private attribute raises [AttributeError]); the heap
    holds none, and the failure is reported here. *)
Definition hand_over (self : Unbuilt.t) : Py addr := λ w,
  match Unbuilt.built self with
  | Some adapter =>
      (Return (length (heap w)), with_heap (heap w ++ [adapter]) w)
  | None => (Raise (AttributeError "_portkey"), w)
  end.

(** [Portkey(mode=.., api_key=.., base_url=..)], lines 76-99. *)
Definition __init__ (mode : string) (api_key base_url : option string)
  : Py addr :=
  guarded_import "portkey" ;;
  let portkey := portkey_module in
  let self := Unbuilt.defaults in                 (* super().__init__() *)
  match api_key with
  | Some k => module_setattr portkey (EvSetApiKey k) (portkey.set_api_key k)
  | None => mret ()
  end ;;
  match base_url with
  | Some u => module_setattr portkey (EvSetBaseUrl u) (portkey.set_base_url u)
  | None => mret ()
  end ;;
  module_setattr portkey (EvSetMode mode) (portkey.set_mode mode) ;;
  let self := Unbuilt.set__portkey portkey self in  (* self._portkey = .. *)
  let self := Unbuilt.set_model None self in        (* self.model = None *)
  let self := Unbuilt.set_mode (Some mode) self in  (* self.mode = mode *)
  hand_over self.

(** [llm_params: Union[LLMOptions, List[LLMOptions]]] *)
Definition llm_params_t : Type := LLMOptions.t + list LLMOptions.t.

(** Lines 102-138. *)
Definition add_llms (self : addr) (llm_params : llm_params_t) : Py addr :=
  guarded_import "LLMOptions" ;;
  let llm_params :=
    match llm_params with
    | inl one => [one]          (* isinstance(llm_params, LLMOptions) *)
    | inr many => many
    end in
  l ← getattr self Portkey.llms;
  setattr self (Portkey.set_llms (l ++ llm_params)) ;; (* self.llms.extend *)
  m ← getattr self Portkey.model;
  match m with
  | None =>
      l ← getattr self Portkey.llms;
      first ← index0 l;
      setattr self (Portkey.set_model (Some (LLMOptions.model first)))
  | Some _ => mret ()
  end ;;
  mret self.

(** The [_client] property, lines 171-178. *)
Definition _client (self : addr) : Py modref :=
  guarded_import "Config" ;;
  l ← getattr self Portkey.llms;
  pk ← getattr self Portkey._portkey;
  module_setattr pk (EvSetConfig (Config.mk l))
    (portkey.set_config (Config.mk l)) ;;
  getattr self Portkey._portkey.

(** A keyword given both explicitly and through [**kwargs]: Python refuses
    the call with a [TypeError] before the callee runs.  ([kwargs] is what
    Python binds to [**kwargs] in [_call] and [_stream]: it never holds the
    names of their own parameters, [prompt], [stop] and [run_manager]; of
    the keywords line 167 and line 203 give explicitly, it can only hold
    [stream].) *)
Definition repeated_keyword (explicit : list string)
    (kwargs : gmap string pyval) : option string :=
  find (λ k, bool_decide (is_Some (kwargs !! k))) explicit.

(** [pk.Completions.create(prompt=.., stream=.., stop=.., **kwargs)]: the
    gateway sees the request and the attributes the module has right now. *)
Definition Completions_create (pk : modref) (prompt : string) (stream : bool)
    (stop : option (list string)) (kwargs : gmap string pyval)
  : Py (Response stream) := λ w,
  match repeated_keyword ["prompt"; "stream"; "stop"] kwargs with
  | Some k =>
      (Raise (TypeError k), w)
  | None =>
      let w' :=
        with_events
          (events w ++
             [EvCreate (module w) (Build_Request prompt stream stop kwargs)])
          w in
      match
        gateway w (module w) (Build_Request prompt stream stop kwargs)
      with
      | inl e => (Raise (PortkeyError e), w')
      | inr r => (Return r, w')
      end
  end.

(** [text or ""]: the right operand when [text] is falsy ([None] or [""]). *)
Definition or_empty (text : option string) : string :=
  match text with
  | Some s => if decide (s = "") then "" else s
  | None => ""
  end.

(** Lines 140-169.  In [self._client.config = Config(llms=self.llms)] the
    right-hand side is evaluated first, then the property, then the
    assignment; line 167 reads the property once more. *)
Definition _call (self : addr) (prompt : string) (stop : option (list string))
    (run_manager : option CallbackManagerForLLMRun)
    (kwargs : gmap string pyval) : Py string :=
  guarded_import "Config" ;;
  l ← getattr self Portkey.llms;
  pk ← _client self;
  module_setattr pk (EvSetConfig (Config.mk l))
    (portkey.set_config (Config.mk l)) ;;
  pk ← _client self;
  response ← Completions_create pk prompt false stop kwargs;
  choice ← index0 (choices response);
  mret (or_empty (text choice)).

(** A generator object of [_stream]: not started yet (the body runs at the
    first [next]), suspended at [yield chunk] with the tokens still to come,
    or finished. *)
Inductive generator :=
| GenCreated (self : addr) (prompt : string) (stop : option (list string))
    (run_manager : option CallbackManagerForLLMRun)
    (kwargs : gmap string pyval)
| GenSuspended (run_manager : option CallbackManagerForLLMRun)
    (chunk : GenerationChunk) (rest : list PortkeyResponse)
| GenFinished.

(** Lines 180-208: calling [_stream] only makes the generator. *)
Definition _stream (self : addr) (prompt : string)
    (stop : option (list string))
    (run_manager : option CallbackManagerForLLMRun)
    (kwargs : gmap string pyval) : generator :=
  GenCreated self prompt stop run_manager kwargs.

(** The head of the [for] loop of line 204, up to the next [yield]:
    [None] is [StopIteration]. *)
Definition for_token (run_manager : option CallbackManagerForLLMRun)
    (response : list PortkeyResponse)
  : Py (option GenerationChunk * generator) :=
  match response with
  | [] => mret (None, GenFinished)
  | token :: rest =>
      choice ← index0 (choices token);
      let chunk := {| chunk_text := or_empty (text choice) |} in
      emit (EvYield chunk) ;;
      mret (Some chunk, GenSuspended run_manager chunk rest)
  end.

(** [next(g)]: run the body of [_stream] from where [g] stands to the next
    [yield].  A generator that raised is finished. *)
Definition next (g : generator) : Py (option GenerationChunk * generator) :=
  match g with
  | GenCreated self prompt stop run_manager kwargs =>
      pk ← _client self;
      response ← Completions_create pk prompt true stop kwargs;
      for_token run_manager response
  | GenSuspended run_manager chunk rest =>
      match run_manager with
      | Some rm => emit (EvOnLLMNewToken rm (chunk_text chunk) chunk)
      | None => mret ()
      end ;;
      for_token run_manager rest
  | GenFinished => mret (None, GenFinished)
  end.

(** [list(g)]: the complete iteration, [next] until [StopIteration].
    [None] when the fuel runs out first: a consumer that gives up after
    [fuel] chunks. *)
Fixpoint iterate (fuel : nat) (g : generator)
  : Py (option (list GenerationChunk)) :=
  match fuel with
  | 0 => mret None
  | S fuel =>
      step ← next g;
      match step with
      | (None, _) => mret (Some [])
      | (Some chunk, g') =>
          chunks ← iterate fuel g';
          mret ((chunk ::.) <$> chunks)
      end
  end.

(** ** A sample world *)

Definition davinci : LLMOptions.t :=
  LLMOptions.mk (Some "openai") (Some "openai-virtual-key") "text-davinci-003"
    None 5%Z None None.
Definition claude : LLMOptions.t :=
  LLMOptions.mk (Some "anthropic") None "claude-2" (Some 256%Z) 5%Z None None.

(** A gateway that answers every plain request with one choice naming the
    routing mode it ran under, and every streamed one with three tokens,
    the second of which has no text. *)
Definition sample_gateway (m : portkey.t) (req : Request)
  : string + Response (stream req) :=
  match stream req as b return string + Response b with
  | false => inr {| choices := [ {| text := portkey.mode m |} ] |}
  | true =>
      inr [ {| choices := [ {| text := Some "Hel" |} ] |};
            {| choices := [ {| text := None |}; {| text := Some "x" |} ] |};
            {| choices := [ {| text := Some "lo" |} ] |} ]
  end.

Definition blank_module : portkey.t := portkey.mk None None None None.

Definition sample_world : World :=
  {| import_portkey := None; module := blank_module; heap := [];
     gateway := sample_gateway; events := [] |}.

Definition not_installed : World :=
  with_import (Some "No module named 'portkey'") sample_world.

(** Two adapters made one after the other: both share the module. *)
Definition two_adapters : Py (addr * addr) :=
  a ← __init__ "single" (Some "PORTKEY_API_KEY") None;
  b ← __init__ "fallback" None None;
  mret (a, b).

(** One adapter, just constructed. *)
Definition fresh_world : World :=
  (__init__ "single" (Some "PORTKEY_API_KEY") None sample_world).2.

(** One adapter with one parameter set, ready to serve requests. *)
Definition serving_world : World :=
  (add_llms 0 (inl davinci) fresh_world).2.

(** ** Vocabulary of the statements *)

(** What a run added to the log. *)
Definition new_events (w w' : World) : list Event :=
  drop (length (events w)) (events w').

Definition is_create (e : Event) : bool :=
  match e with EvCreate _ _ => true | _ => false end.
Definition is_set_mode (e : Event) : bool :=
  match e with EvSetMode _ => true | _ => false end.

(** The number of [Completions.create] calls among some events. *)
Fixpoint creates (l : list Event) : nat :=
  match l with
  | [] => 0
  | e :: l => (if is_create e then 1 else 0) + creates l
  end.

(** The writes the constructor makes for an optional argument. *)
Definition option_event {A} (ev : A → Event) (o : option A) : list Event :=
  match o with
  | Some a => [ev a]
  | None => []
  end.

(** The list an argument of [add_llms] stands for. *)
Definition as_list (llm_params : llm_params_t) : list LLMOptions.t :=
  match llm_params with
  | inl one => [one]
  | inr many => many
  end.

(** The chunk a streamed token stands for: its first choice's text, the
    empty string for [None]. *)
Definition chunk_of (token : PortkeyResponse) : GenerationChunk :=
  {| chunk_text := default "" (head (choices token) ≫= text) |}.

Definition callback_events (run_manager : option CallbackManagerForLLMRun)
    (chunk : GenerationChunk) : list Event :=
  match run_manager with
  | Some rm => [EvOnLLMNewToken rm (chunk_text chunk) chunk]
  | None => []
  end.

(** What a complete iteration over [tokens] logs: each chunk is yielded,
    then reported to the run manager, before the next one is made. *)
Definition stream_events (run_manager : option CallbackManagerForLLMRun)
    (tokens : list PortkeyResponse) : list Event :=
  flat_map (λ t, EvYield (chunk_of t) :: callback_events run_manager (chunk_of t))
    tokens.

(** The contract of the import guard for an operation: when the package is
    missing, the operation raises the adapter's [ImportError], chained from
    the original one, and does nothing else; when it is there, the operation
    raises no [ImportError] at all. *)
Definition import_guarded {A} (op : Py A) : Prop :=
  ∀ w,
    match import_portkey w with
    | Some m =>
        op w = (Raise (ImportError IMPORT_ERROR_MESSAGE
                         (Some (ImportError m None))), w)
    | None => ∀ msg cause, (op w).1 ≠ Raise (ImportError msg cause)
    end.

(** The same contract, for a message given in full. *)
Definition guarded_by {A} (message : string) (op : Py A) : Prop :=
  ∀ w,
    match import_portkey w with
    | Some m =>
        op w = (Raise (ImportError message (Some (ImportError m None))), w)
    | None => ∀ msg cause, (op w).1 ≠ Raise (ImportError msg cause)
    end.

(** The reading of the glossary's "configured per request": every [_call]
    writes [portkey.mode] while it prepares its request. *)
Definition mode_set_by_every_call : Prop :=
  ∀ w self prompt stop run_manager kwargs,
    ∃ v, EvSetMode v ∈
           new_events w (_call self prompt stop run_manager kwargs w).2.

(** ** Lives of an adapter *)

(** What a program does with an adapter after it made it, one step at a
    time; [OpInstall] is the environment changing under it, [OpNew] another
    adapter being made. *)
Inductive Op :=
| OpAddLlms (llm_params : llm_params_t)
| OpCall (prompt : string) (stop : option (list string))
    (run_manager : option CallbackManagerForLLMRun)
    (kwargs : gmap string pyval)
| OpStream (prompt : string) (stop : option (list string))
    (run_manager : option CallbackManagerForLLMRun)
    (kwargs : gmap string pyval) (fuel : nat)
| OpClient
| OpInstall (status : option string)
| OpNew (mode : string) (api_key base_url : option string).

Definition returned {A} (r : outcome A) : bool :=
  match r with
  | Return _ => true
  | Raise _ => false
  end.

(** One step on the adapter at [self]: whether it returned, and the world
    it leaves.  An exception is caught by the program, which goes on. *)
Definition perform (self : addr) (op : Op) (w : World) : bool * World :=
  match op with
  | OpAddLlms llm_params => prod_map returned id (add_llms self llm_params w)
  | OpCall prompt stop run_manager kwargs =>
      prod_map returned id (_call self prompt stop run_manager kwargs w)
  | OpStream prompt stop run_manager kwargs fuel =>
      prod_map returned id
        (iterate fuel (_stream self prompt stop run_manager kwargs) w)
  | OpClient => prod_map returned id (_client self w)
  | OpInstall status => (true, with_import status w)
  | OpNew mode api_key base_url =>
      prod_map returned id (__init__ mode api_key base_url w)
  end.

(** A whole life: the steps with their results, and the final world. *)
Fixpoint perform_all (self : addr) (ops : list Op) (w : World)
  : list (Op * bool) * World :=
  match ops with
  | [] => ([], w)
  | op :: ops =>
      let '(ok, w1) := perform self op w in
      let '(log, w2) := perform_all self ops w1 in
      ((op, ok) :: log, w2)
  end.

(** The parameter sets of the [add_llms] calls that returned, in order. *)
Definition added_by (step : Op * bool) : list LLMOptions.t :=
  match step with
  | (OpAddLlms llm_params, true) => as_list llm_params
  | _ => []
  end.
Definition added (log : list (Op * bool)) : list LLMOptions.t :=
  flat_map added_by log.

Definition is_successful_add (step : Op * bool) : bool :=
  match step with
  | (OpAddLlms _, true) => true
  | _ => false
  end.

(** The routing mode a logged [Completions.create] call ran under. *)
Definition create_ran_under (mode : option string) (e : Event) : Prop :=
  match e with
  | EvCreate seen _ => portkey.mode seen = mode
  | _ => True
  end.

(** What a request method may do to the world: it writes [portkey.config]
    and calls [Completions.create] at most [n] times, exactly [n] times
    when the run counts as done ([ok]); adapters, the environment and the
    other attributes of the module stay as they are, [portkey.mode] is not
    written, and every call runs under the mode found at the start. *)
Definition only_configures (n : nat) (ok : bool) (w w' : World) : Prop :=
  heap w' = heap w ∧
  import_portkey w' = import_portkey w ∧
  gateway w' = gateway w ∧
  portkey.api_key (module w') = portkey.api_key (module w) ∧
  portkey.base_url (module w') = portkey.base_url (module w) ∧
  portkey.mode (module w') = portkey.mode (module w) ∧
  ∃ l, events w' = events w ++ l ∧
       Forall (λ e, is_set_mode e = false) l ∧
       Forall (create_ran_under (portkey.mode (module w))) l ∧
       creates l ≤ n ∧
       (ok = true → creates l = n).

(** A run that only configures, and is done when it returns. *)
Definition runs_within {A} (n : nat) (w : World) (r : outcome A * World)
  : Prop :=
  only_configures n (returned r.1) w r.2.

(** A complete iteration is done when it reached [StopIteration]. *)
Definition completed (r : outcome (option (list GenerationChunk))) : bool :=
  match r with
  | Return (Some _) => true
  | _ => false
  end.

(** The [Completions.create] calls a generator still has to make. *)
Definition gen_budget (g : generator) : nat :=
  match g with
  | GenCreated _ _ _ _ _ => 1
  | _ => 0
  end.

(** The adapter after [add_llms] returned: the parameter sets are at the
    end of [llms], and a [model] that was [None] is the first one's. *)
Definition extended (params : list LLMOptions.t) (o : Portkey.t) : Portkey.t :=
  {| Portkey.mode := Portkey.mode o;
     Portkey.model :=
       match Portkey.model o with
       | Some m => Some m
       | None => LLMOptions.model <$> head (Portkey.llms o ++ params)
       end;
     Portkey.llm := Portkey.llm o;
     Portkey.streaming := Portkey.streaming o;
     Portkey.llms := Portkey.llms o ++ params;
     Portkey._portkey := Portkey._portkey o |}.

(** The world the constructor leaves when the package is there. *)
Definition initialised (mode : string) (api_key base_url : option string)
    (w : World) : World :=
  {| import_portkey := import_portkey w;
     module :=
       {| portkey.api_key :=
            match api_key with
            | Some k => Some k
            | None => portkey.api_key (module w)
            end;
          portkey.base_url :=
            match base_url with
            | Some u => Some u
            | None => portkey.base_url (module w)
            end;
          portkey.mode := Some mode;
          portkey.config := portkey.config (module w) |};
     heap := heap w ++
       [ {| Portkey.mode := Some mode; Portkey.model := None;
            Portkey.llm := ∅; Portkey.streaming := false; Portkey.llms := [];
            Portkey._portkey := portkey_module |} ];
     gateway := gateway w;
     events := events w ++ option_event EvSetApiKey api_key
                 ++ option_event EvSetBaseUrl base_url ++ [EvSetMode mode] |}.

(** The world right after a request went out: the module's [config] was
    rebuilt [n] times from [llms], then [Completions.create] was called. *)
Definition requested (n : nat) (llms : list LLMOptions.t) (req : Request)
    (w : World) : World :=
  with_events
    (events w ++ replicate n (EvSetConfig (Config.mk llms))
       ++ [EvCreate (portkey.set_config (Config.mk llms) (module w)) req])
    (with_module (portkey.set_config (Config.mk llms) (module w)) w).

(** The world after [two_adapters]. *)
Definition shared_world : World := (two_adapters sample_world).2.

(** A life: a request before anything was added, an empty addition (which
    raises), an addition of two, one while the package is gone (which
    raises), one more once it is back, and a stream. *)
Definition sample_life : list Op :=
  [OpCall "hi" None None ∅; OpAddLlms (inr []);
   OpAddLlms (inr [davinci; claude]); OpInstall (Some "uninstalled");
   OpAddLlms (inl claude); OpInstall None; OpAddLlms (inl claude);
   OpStream "hi" None None ∅ 5].

(** ** The rest of the class, and more worlds *)

(** The [_llm_type] property, lines 211-214: it reads nothing. *)
Definition _llm_type (self : addr) : Py string := mret "portkey-ai-gateway".

Definition with_gateway
    (g : portkey.t → ∀ req : Request, string + Response (stream req))
    (w : World) : World :=
  {| import_portkey := import_portkey w; module := module w; heap := heap w;
     gateway := g; events := events w |}.

(** A gateway whose plain answers have no choice at all, and whose streams
    carry a token without choices between two good ones. *)
Definition choiceless_gateway (m : portkey.t) (req : Request)
  : string + Response (stream req) :=
  match stream req as b return string + Response b with
  | false => inr {| choices := [] |}
  | true =>
      inr [ {| choices := [ {| text := Some "Hel" |} ] |};
            {| choices := [] |};
            {| choices := [ {| text := Some "lo" |} ] |} ]
  end.

Definition choiceless_world : World :=
  with_gateway choiceless_gateway serving_world.

(** What Python can bind to [**kwargs] in [_call] and [_stream]: none of
    the names of their own parameters. *)
Definition extra_keywords (kwargs : gmap string pyval) : Prop :=
  kwargs !! "prompt" = None ∧
  kwargs !! "stop" = None ∧
  kwargs !! "run_manager" = None.

(** The module attribute two constructors in a row leave: the second
    argument if given, else the first, else what was there. *)
Definition latest (second first : option string) (old : option string)
  : option string :=
  match second, first with
  | Some v, _ => Some v
  | None, Some v => Some v
  | None, None => old
  end.

(** * Proofs *)

(** ** Running the primitives *)

Lemma guarded_import_ok name w :
  import_portkey w = None → guarded_import name w = (Return (), w).
Proof.
  intros H. unfold guarded_import, try_except_ImportError, import_from_portkey.
  by rewrite H.
Qed.

Lemma guarded_import_missing name w m :
  import_portkey w = Some m →
  guarded_import name w =
    (Raise (ImportError IMPORT_ERROR_MESSAGE (Some (ImportError m None))), w).
Proof.
  intros H. unfold guarded_import, try_except_ImportError, import_from_portkey.
  by rewrite H.
Qed.

Lemma alloc_lookup (h : list Portkey.t) o : (h ++ [o]) !! length h = Some o.
Proof. by rewrite list_lookup_middle. Qed.

Lemma or_empty_default t : or_empty t = default "" t.
Proof. destruct t as [s|]; simpl; [|done]. by case_decide; subst. Qed.

Lemma new_events_app w w' l : events w' = events w ++ l → new_events w w' = l.
Proof. unfold new_events. intros ->. by rewrite drop_app_length. Qed.

Lemma set_config_idem c m :
  portkey.set_config c (portkey.set_config c m) = portkey.set_config c m.
Proof. reflexivity. Qed.

(** Unfolding the monad and the primitives that never fail. *)
Ltac py_unfold :=
  unfold mbind, mret, Py_bind, Py_ret, module_setattr, emit, raise in *.

(** ** The [_client] property *)

Lemma _client_run w self o :
  import_portkey w = None →
  heap w !! self = Some o →
  _client self w =
    (Return portkey_module,
     with_events (events w ++ [EvSetConfig (Config.mk (Portkey.llms o))])
       (with_module
          (portkey.set_config (Config.mk (Portkey.llms o)) (module w)) w)).
Proof.
  intros Himp Hself. unfold _client, getattr. py_unfold.
  rewrite (guarded_import_ok _ _ Himp). cbn. rewrite !Hself.
  by destruct (Portkey._portkey o).
Qed.


(** ** The constructor *)

Lemma init_run w mode api_key base_url :
  import_portkey w = None →
  __init__ mode api_key base_url w =
    (Return (length (heap w)), initialised mode api_key base_url w).
Proof.
  intros Himp. unfold __init__, hand_over, initialised. py_unfold.
  rewrite (guarded_import_ok _ _ Himp).
  destruct api_key, base_url; cbn; by rewrite <- ?app_assoc.
Qed.

Lemma init_missing w mode api_key base_url m :
  import_portkey w = Some m →
  __init__ mode api_key base_url w =
    (Raise (ImportError IMPORT_ERROR_MESSAGE (Some (ImportError m None))), w).
Proof.
  intros Himp. unfold __init__. py_unfold.
  by rewrite (guarded_import_missing _ _ _ Himp).
Qed.

(** ** Requests, whatever the gateway answers *)

Lemma _call_run w self o prompt stop run_manager kwargs :
  let req := Build_Request prompt false stop kwargs in
  import_portkey w = None →
  heap w !! self = Some o →
  repeated_keyword ["prompt"; "stream"; "stop"] kwargs = None →
  _call self prompt stop run_manager kwargs w =
    (match gateway w
             (portkey.set_config (Config.mk (Portkey.llms o)) (module w)) req
     with
     | inl e => Raise (PortkeyError e)
     | inr response =>
         match choices response with
         | choice :: _ => Return (default "" (text choice))
         | [] => Raise (IndexError "list index out of range")
         end
     end,
     requested 3 (Portkey.llms o) req w).
Proof.
  intros req Himp Hself Hkw.
  unfold _call, getattr, requested. py_unfold.
  rewrite (guarded_import_ok _ _ Himp). cbn. rewrite Hself.
  rewrite (_client_run _ _ _ Himp Hself). cbn.
  erewrite _client_run by (cbn; eauto). cbn.
  unfold Completions_create. rewrite Hkw. cbn.
  rewrite !set_config_idem. fold req. rewrite <- !app_assoc. cbn.
  destruct (gateway w _ req) as [e|response]; [done|].
  destruct (choices response) as [|choice others]; cbn; [done|].
  by rewrite or_empty_default.
Qed.

Lemma next_created_run w self o prompt stop run_manager kwargs :
  let req := Build_Request prompt true stop kwargs in
  import_portkey w = None →
  heap w !! self = Some o →
  repeated_keyword ["prompt"; "stream"; "stop"] kwargs = None →
  next (_stream self prompt stop run_manager kwargs) w =
    match gateway w
            (portkey.set_config (Config.mk (Portkey.llms o)) (module w)) req
    with
    | inl e => (Raise (PortkeyError e), requested 1 (Portkey.llms o) req w)
    | inr tokens =>
        for_token run_manager tokens (requested 1 (Portkey.llms o) req w)
    end.
Proof.
  intros req Himp Hself Hkw. unfold _stream, next, requested. py_unfold.
  rewrite (_client_run _ _ _ Himp Hself). cbn -[for_token].
  unfold Completions_create. rewrite Hkw. cbn -[for_token]. fold req.
  rewrite <- !app_assoc. cbn -[for_token].
  by destruct (gateway w _ req) as [e|tokens].
Qed.



(** C4.  With the package installed, the constructor writes
    [portkey.api_key] and [portkey.base_url] exactly when the argument is
    not [None] and leaves them as they were otherwise, always writes
    [portkey.mode = mode], leaves [portkey.config] alone, and returns a new
    adapter whose [_portkey], unset until then, holds the module, whose
    [mode] is [mode] and whose [model] is [None]. *)
Theorem init_maps_configuration w mode api_key base_url :
  import_portkey w = None →
  Unbuilt._portkey Unbuilt.defaults = None ∧
  ∃ w',
    __init__ mode api_key base_url w = (Return (length (heap w)), w') ∧
    portkey.api_key (module w') =
      match api_key with
      | Some k => Some k
      | None => portkey.api_key (module w)
      end ∧
    portkey.base_url (module w') =
      match base_url with
      | Some u => Some u
      | None => portkey.base_url (module w)
      end ∧
    portkey.mode (module w') = Some mode ∧
    portkey.config (module w') = portkey.config (module w) ∧
    events w' = events w ++ option_event EvSetApiKey api_key
                  ++ option_event EvSetBaseUrl base_url ++ [EvSetMode mode] ∧
    heap w' = heap w ++
      [ {| Portkey.mode := Some mode; Portkey.model := None;
           Portkey.llm := ∅; Portkey.streaming := false; Portkey.llms := [];
           Portkey._portkey := portkey_module |} ].
Proof.
  intros Himp. split; [done|]. rewrite (init_run _ _ _ _ Himp).
  eexists; split; [reflexivity|]. by destruct api_key, base_url.
Qed.

Lemma init_maps_configuration_witness :
  Unbuilt._portkey Unbuilt.defaults = None ∧
  ∃ w',
    __init__ "single" (Some "PORTKEY_API_KEY") None sample_world
      = (Return 0, w') ∧
    portkey.api_key (module w') = Some "PORTKEY_API_KEY" ∧
    portkey.base_url (module w') = None ∧
    portkey.mode (module w') = Some "single" ∧
    portkey.config (module w') = None ∧
    events w' = [EvSetApiKey "PORTKEY_API_KEY"; EvSetMode "single"] ∧
    heap w' =
      [ {| Portkey.mode := Some "single"; Portkey.model := None;
           Portkey.llm := ∅; Portkey.streaming := false; Portkey.llms := [];
           Portkey._portkey := portkey_module |} ].
Proof.
  exact (init_maps_configuration sample_world "single"
           (Some "PORTKEY_API_KEY") None eq_refl).
Defined.


(** ** The generator of [_stream] *)


Lemma for_token_cons run_manager token rest w :
  choices token ≠ [] →
  for_token run_manager (token :: rest) w =
    (Return (Some (chunk_of token),
             GenSuspended run_manager (chunk_of token) rest),
     with_events (events w ++ [EvYield (chunk_of token)]) w).
Proof.
  intros Hne. unfold for_token, chunk_of. py_unfold.
  destruct (choices token) as [|choice others]; [done|]. cbn.
  by rewrite or_empty_default.
Qed.

Lemma with_events_id w : with_events (events w) w = w.
Proof. by destruct w. Qed.

Lemma iterate_S fuel g w :
  iterate (S fuel) g w =
    match next g w with
    | (Return (None, _), w1) => (Return (Some []), w1)
    | (Return (Some chunk, g'), w1) =>
        match iterate fuel g' w1 with
        | (Return chunks, w2) => (Return ((chunk ::.) <$> chunks), w2)
        | (Raise e, w2) => (Raise e, w2)
        end
    | (Raise e, w1) => (Raise e, w1)
    end.
Proof.
  cbn [iterate]. unfold mbind, Py_bind.
  by destruct (next g w) as [[[[chunk|] g']|e] w1].
Qed.



(** ** What the request methods leave alone *)

Lemma creates_app l1 l2 : creates (l1 ++ l2) = creates l1 + creates l2.
Proof. induction l1 as [|e l1 IH]; simpl; [done|]. rewrite IH. lia. Qed.

Lemma only_configures_refl ok w : only_configures 0 ok w w.
Proof.
  repeat split. exists []. rewrite app_nil_r. repeat split; simpl; done.
Qed.

Lemma only_configures_undone n w : only_configures n false w w.
Proof.
  repeat split. exists []. rewrite app_nil_r.
  repeat split; simpl; [done..|lia|done].
Qed.

Lemma only_configures_trans n1 n2 ok1 ok2 w w1 w2 :
  only_configures n1 ok1 w w1 → only_configures n2 ok2 w1 w2 →
  only_configures (n1 + n2) (ok1 && ok2) w w2.
Proof.
  intros (Hh & Hi & Hg & Ha & Hb & Hm & l & He & Hl & Hr & Hc & Hx)
         (Hh' & Hi' & Hg' & Ha' & Hb' & Hm' & l' & He' & Hl' & Hr' & Hc' & Hx').
  repeat split; try congruence.
  exists (l ++ l'). rewrite He', He, app_assoc. repeat split.
  - by apply Forall_app.
  - apply Forall_app; split; [done|]. by rewrite <- Hm.
  - rewrite creates_app. lia.
  - intros [-> ->]%andb_true_iff. rewrite creates_app, Hx, Hx'; done.
Qed.

Lemma only_configures_undo n n' w w' ok :
  n ≤ n' → only_configures n ok w w' → only_configures n' false w w'.
Proof.
  intros Hn (Hh & Hi & Hg & Ha & Hb & Hm & l & He & Hl & Hr & Hc & Hx).
  repeat split; try done. exists l. repeat split; [done..|lia|done].
Qed.

(** A program that only configures, followed by one that makes no call. *)
Lemma bind_runs_within_l {A B} (m : Py A) (f : A → Py B) n w :
  runs_within n w (m w) →
  (∀ a w1, runs_within 0 w1 (f a w1)) →
  runs_within n w ((m ≫= f) w).
Proof.
  unfold runs_within. intros Hm Hf. unfold mbind, Py_bind.
  destruct (m w) as [[a|e] w1]; [|done]. cbn in *.
  replace n with (n + 0) by lia.
  change (returned (f a w1).1) with (true && returned (f a w1).1).
  by eapply only_configures_trans.
Qed.

(** A program that makes no call, followed by one that only configures. *)
Lemma bind_runs_within_r {A B} (m : Py A) (f : A → Py B) n w :
  runs_within 0 w (m w) →
  (∀ a w1, runs_within n w1 (f a w1)) →
  runs_within n w ((m ≫= f) w).
Proof.
  unfold runs_within. intros Hm Hf. unfold mbind, Py_bind.
  destruct (m w) as [[a|e] w1]; cbn in *.
  - change n with (0 + n).
    change (returned (f a w1).1) with (true && returned (f a w1).1).
    by eapply only_configures_trans.
  - eapply only_configures_undo; [|done]. lia.
Qed.

Lemma guarded_import_world name w : (guarded_import name w).2 = w.
Proof.
  unfold guarded_import, try_except_ImportError, import_from_portkey.
  by destruct (import_portkey w).
Qed.

Lemma guarded_import_frame name w : runs_within 0 w (guarded_import name w).
Proof.
  unfold runs_within. rewrite guarded_import_world.
  apply only_configures_refl.
Qed.

Lemma getattr_frame {A} self (f : Portkey.t → A) w :
  runs_within 0 w (getattr self f w).
Proof.
  unfold getattr. destruct (heap w !! self); apply only_configures_refl.
Qed.

Lemma index0_frame {A} (l : list A) w : runs_within 0 w (index0 l w).
Proof. destruct l; apply only_configures_refl. Qed.

Lemma mret_frame {A} (a : A) w : runs_within 0 w ((mret a : Py A) w).
Proof. apply only_configures_refl. Qed.

Lemma emit_frame e w :
  is_set_mode e = false → is_create e = false →
  runs_within 0 w (emit e w).
Proof.
  intros Hm Hc. repeat split. exists [e].
  repeat split; simpl; rewrite ?Hc; auto with lia.
  constructor; [by destruct e|done].
Qed.

Lemma set_config_frame pk c w :
  runs_within 0 w
    (module_setattr pk (EvSetConfig c) (portkey.set_config c) w).
Proof.
  repeat split. exists [EvSetConfig c]. repeat split; simpl; auto with lia.
  by constructor.
Qed.

Lemma _client_frame self w : runs_within 0 w (_client self w).
Proof.
  unfold _client.
  apply bind_runs_within_r; [apply guarded_import_frame|intros _ w1].
  apply bind_runs_within_r; [apply getattr_frame|intros l w2].
  apply bind_runs_within_r; [apply getattr_frame|intros pk w3].
  apply bind_runs_within_r; [apply set_config_frame|intros _ w4].
  apply getattr_frame.
Qed.

Lemma Completions_create_frame pk prompt stream stop kwargs w :
  runs_within 1 w (Completions_create pk prompt stream stop kwargs w).
Proof.
  unfold Completions_create, runs_within.
  destruct (repeated_keyword _ _); [apply only_configures_undone|].
  assert (∀ ok, only_configures 1 ok w
    (with_events
       (events w ++ [EvCreate (module w)
                       (Build_Request prompt stream stop kwargs)]) w)).
  { intros ok. repeat split. eexists. repeat split; simpl; auto with lia.
    by constructor. }
  by destruct (gateway w _ _).
Qed.

Lemma _call_frame self prompt stop run_manager kwargs w :
  runs_within 1 w (_call self prompt stop run_manager kwargs w).
Proof.
  unfold _call.
  apply bind_runs_within_r; [apply guarded_import_frame|intros _ w1].
  apply bind_runs_within_r; [apply getattr_frame|intros l w2].
  apply bind_runs_within_r; [apply _client_frame|intros pk w3].
  apply bind_runs_within_r; [apply set_config_frame|intros _ w4].
  apply bind_runs_within_r; [apply _client_frame|intros pk' w5].
  apply bind_runs_within_l;
    [apply (Completions_create_frame pk' prompt false)|].
  intros response w6.
  apply bind_runs_within_r; [apply index0_frame|intros choice w7].
  apply mret_frame.
Qed.

Lemma for_token_frame run_manager response w :
  runs_within 0 w (for_token run_manager response w).
Proof.
  destruct response as [|token rest]; [apply only_configures_refl|].
  unfold for_token.
  apply bind_runs_within_r; [apply index0_frame|intros choice w1].
  apply bind_runs_within_r; [by apply emit_frame|intros _ w2].
  apply mret_frame.
Qed.

Lemma for_token_budget run_manager response w item g :
  (for_token run_manager response w).1 = Return (item, g) → gen_budget g = 0.
Proof.
  destruct response as [|token rest]; cbn; [by intros [= <- <-]|].
  py_unfold. destruct (choices token); cbn; [done|]. by intros [= <- <-].
Qed.

Lemma next_frame g w : runs_within (gen_budget g) w (next g w).
Proof.
  destruct g as [self prompt stop run_manager kwargs|run_manager chunk rest|].
  - cbn [next gen_budget].
    apply bind_runs_within_r; [apply _client_frame|intros pk w1].
    apply bind_runs_within_l;
      [apply (Completions_create_frame pk prompt true)|].
    intros response w2. apply for_token_frame.
  - cbn [next gen_budget].
    apply bind_runs_within_r; [|intros _ w1; apply for_token_frame].
    destruct run_manager; [by apply emit_frame|apply mret_frame].
  - apply only_configures_refl.
Qed.

Lemma next_budget g w item g' :
  (next g w).1 = Return (item, g') → gen_budget g' = 0.
Proof.
  destruct g as [self prompt stop run_manager kwargs|run_manager chunk rest|].
  - cbn [next]. unfold mbind, Py_bind.
    destruct (_client self w) as [[pk|e] w1]; [|done].
    destruct (Completions_create _ _ _ _ _ _) as [[response|e] w2]; [|done].
    apply for_token_budget.
  - cbn [next]. py_unfold.
    destruct run_manager; cbn -[for_token]; apply for_token_budget.
  - cbn. by intros [= <- <-].
Qed.

Lemma iterate_frame fuel :
  ∀ g w,
    only_configures (gen_budget g) (completed (iterate fuel g w).1) w
      (iterate fuel g w).2.
Proof.
  induction fuel as [|fuel IH]; intros g w; [apply only_configures_undone|].
  rewrite iterate_S.
  pose proof (next_frame g w) as Hframe.
  pose proof (next_budget g w) as Hbudget.
  unfold runs_within in Hframe.
  destruct (next g w) as [[[[chunk|] g']|e] w1]; cbn in Hframe.
  - specialize (Hbudget _ _ eq_refl). specialize (IH g' w1).
    rewrite Hbudget in IH.
    destruct (iterate fuel g' w1) as [[[chunks|]|e] w2]; cbn in *.
    + replace (gen_budget g) with (gen_budget g + 0) by lia.
      exact (only_configures_trans _ _ true true _ _ _ Hframe IH).
    + eapply only_configures_undo;
        [|exact (only_configures_trans _ _ _ _ _ _ _ Hframe IH)]. lia.
    + eapply only_configures_undo;
        [|exact (only_configures_trans _ _ _ _ _ _ _ Hframe IH)]. lia.
  - done.
  - by eapply only_configures_undo.
Qed.

Lemma only_configures_heap n ok w w' : only_configures n ok w w' → heap w' = heap w.
Proof. by intros (? & _). Qed.

Lemma only_configures_mode n ok w w' :
  only_configures n ok w w' →
  portkey.mode (module w') = portkey.mode (module w).
Proof. by intros (_ & _ & _ & _ & _ & ? & _). Qed.

Lemma only_configures_events n ok w w' :
  only_configures n ok w w' →
  Forall (λ e, is_set_mode e = false) (new_events w w') ∧
  Forall (create_ran_under (portkey.mode (module w))) (new_events w w') ∧
  creates (new_events w w') ≤ n ∧
  (ok = true → creates (new_events w w') = n).
Proof.
  intros (_ & _ & _ & _ & _ & _ & l & He & Hl & Hr & Hc & Hx).
  by rewrite (new_events_app _ _ _ He).
Qed.

(** ** [add_llms] *)

Lemma insert_insert_self (h : list Portkey.t) self o1 o2 :
  <[self := o2]> (<[self := o1]> h) = <[self := o2]> h.
Proof. apply list_insert_insert_eq. Qed.

Lemma lookup_insert_self (h : list Portkey.t) self o o' :
  h !! self = Some o → <[self := o']> h !! self = Some o'.
Proof. intros H. apply list_lookup_insert_eq. by eapply lookup_lt_Some. Qed.

(** Reading [self] back, through the writes already made to it. *)
Ltac heap_step Hself :=
  repeat (first [ rewrite Hself
                | rewrite (lookup_insert_self _ _ _ _ Hself)
                | rewrite insert_insert_self ]; cbn).

(** A single [LLMOptions] is the list of it. *)
Lemma add_llms_single self one : add_llms self (inl one) = add_llms self (inr [one]).
Proof. reflexivity. Qed.

(** [add_llms] returns [self] as soon as there is a model to name. *)
Lemma add_llms_run w self o llm_params :
  import_portkey w = None →
  heap w !! self = Some o →
  Portkey.model o ≠ None ∨ Portkey.llms o ++ as_list llm_params ≠ [] →
  add_llms self llm_params w =
    (Return self,
     with_heap (<[self := extended (as_list llm_params) o]> (heap w)) w).
Proof.
  intros Himp Hself Hok. unfold add_llms, getattr, setattr. py_unfold.
  rewrite (guarded_import_ok _ _ Himp). cbn. heap_step Hself.
  unfold extended.
  change (match llm_params with inl one => [one] | inr many => many end)
    with (as_list llm_params).
  destruct (Portkey.model o) as [m|] eqn:Hm.
  - cbn. by destruct o; simplify_eq/=.
  - destruct Hok as [|Hne]; [done|].
    destruct (Portkey.llms o ++ as_list llm_params) as [|first others] eqn:Hl;
      [done|].
    cbn. heap_step Hself. by destruct o; simplify_eq/=.
Qed.

(** With no model and nothing to take it from, [self.llms[0]] raises. *)
Lemma add_llms_nothing w self o llm_params :
  import_portkey w = None →
  heap w !! self = Some o →
  Portkey.model o = None →
  Portkey.llms o ++ as_list llm_params = [] →
  add_llms self llm_params w =
    (Raise (IndexError "list index out of range"), w).
Proof.
  intros Himp Hself Hm Hl. unfold add_llms, getattr, setattr. py_unfold.
  rewrite (guarded_import_ok _ _ Himp). cbn. heap_step Hself. rewrite Hm.
  heap_step Hself.
  change (match llm_params with inl one => [one] | inr many => many end)
    with (as_list llm_params).
  rewrite Hl. cbn. heap_step Hself. f_equal.
  apply app_eq_nil in Hl as [Hl _].
  replace (Portkey.set_llms [] o) with o by (by destruct o; simplify_eq/=).
  rewrite list_insert_id by done. by destruct w.
Qed.

Lemma extended_app a b o : extended b (extended a o) = extended (a ++ b) o.
Proof.
  unfold extended. cbn. rewrite <- app_assoc. f_equal.
  destruct (Portkey.model o) as [m|]; [done|].
  destruct (Portkey.llms o) as [|first others]; [|done].
  by destruct a.
Qed.

(** Two additions are one, whenever the first one returns. *)
Lemma add_llms_app w self o a b :
  import_portkey w = None →
  heap w !! self = Some o →
  Portkey.model o ≠ None ∨ Portkey.llms o ++ a ≠ [] →
  (add_llms self (inr a) ;; add_llms self (inr b)) w
    = add_llms self (inr (a ++ b)) w.
Proof.
  intros Himp Hself Hok. py_unfold.
  rewrite (add_llms_run _ _ _ (inr a) Himp Hself Hok).
  rewrite (add_llms_run _ self (extended a o) (inr b)).
  - rewrite (add_llms_run w self o (inr (a ++ b))); [|done..|].
    + cbn. by rewrite insert_insert_self, extended_app.
    + cbn. destruct Hok as [|Hne]; [by left|right].
      rewrite app_assoc. by intros [? _]%app_eq_nil.
  - done.
  - cbn. exact (lookup_insert_self _ _ _ _ Hself).
  - cbn. destruct (Portkey.model o) as [m|] eqn:Hm; [by left|].
    destruct Hok as [|Hne]; [done|].
    right. rewrite <- app_assoc, app_assoc.
    by intros [? _]%app_eq_nil.
Qed.

Lemma add_llms_missing w self llm_params m :
  import_portkey w = Some m →
  add_llms self llm_params w =
    (Raise (ImportError IMPORT_ERROR_MESSAGE (Some (ImportError m None))), w).
Proof.
  intros Himp. unfold add_llms. py_unfold.
  by rewrite (guarded_import_missing _ _ _ Himp).
Qed.

Lemma add_llms_dangling w self llm_params :
  import_portkey w = None →
  heap w !! self = None →
  add_llms self llm_params w =
    (Raise (ReferenceError "no adapter at this address"), w).
Proof.
  intros Himp Hself. unfold add_llms, getattr. py_unfold.
  rewrite (guarded_import_ok _ _ Himp). cbn. by rewrite Hself.
Qed.

(** When the caller catches the exception of the first addition and goes
    on, the adapters end up the same either way: only the exception tells
    the two groupings apart. *)
Lemma add_llms_regrouped w self a b :
  heap (add_llms self (inr b) (add_llms self (inr a) w).2).2 =
  heap (add_llms self (inr (a ++ b)) w).2.
Proof.
  destruct (import_portkey w) as [m|] eqn:Himp.
  { rewrite (add_llms_missing _ _ (inr a) _ Himp). cbn.
    by rewrite !(add_llms_missing _ _ _ _ Himp). }
  destruct (heap w !! self) as [o|] eqn:Hself.
  2: { rewrite (add_llms_dangling _ _ (inr a) Himp Hself). cbn.
       by rewrite !(add_llms_dangling _ _ _ Himp Hself). }
  destruct (Portkey.model o) as [m|] eqn:Hm;
    [|destruct (Portkey.llms o ++ a) as [|first others] eqn:Hl].
  - pose proof (add_llms_app w self o a b Himp Hself) as Happ.
    unfold mbind, Py_bind in Happ. rewrite <- Happ by (left; congruence).
    by rewrite (add_llms_run _ _ _ (inr a) Himp Hself) by (left; congruence).
  - rewrite (add_llms_nothing _ _ _ (inr a) Himp Hself Hm Hl). cbn.
    by apply app_eq_nil in Hl as [_ ->].
  - pose proof (add_llms_app w self o a b Himp Hself) as Happ.
    unfold mbind, Py_bind in Happ. rewrite <- Happ by (right; congruence).
    by rewrite (add_llms_run _ _ _ (inr a) Himp Hself)
      by (right; cbn; congruence).
Qed.

(** C8, at the input where the code fails it: on an adapter just
    constructed, [add_llms([])] does not return [self] but raises
    [IndexError], from [self.llms[0]] on the empty list. *)
Theorem add_llms_empty_list_raises :
  heap fresh_world !! 0 =
    Some (Portkey.mk (Some "single") None ∅ false [] portkey_module) ∧
  import_portkey fresh_world = None ∧
  add_llms 0 (inr []) fresh_world =
    (Raise (IndexError "list index out of range"), fresh_world).
Proof. repeat split. Qed.

(** C10, at the input where the code fails it: on an adapter just
    constructed, [add_llms([])] then [add_llms([davinci])] stops in the
    first call with [IndexError] and leaves the adapter empty, while the
    single call [add_llms([] + [davinci])] returns and leaves one parameter
    set and its model. *)
Theorem add_llms_not_a_homomorphism_at_nil :
  (add_llms 0 (inr []) ;; add_llms 0 (inr [davinci])) fresh_world =
    (Raise (IndexError "list index out of range"), fresh_world) ∧
  add_llms 0 (inr ([] ++ [davinci])) fresh_world =
    (Return 0, serving_world) ∧
  heap fresh_world =
    [Portkey.mk (Some "single") None ∅ false [] portkey_module] ∧
  heap serving_world =
    [Portkey.mk (Some "single") (Some "text-davinci-003") ∅ false [davinci]
       portkey_module].
Proof. repeat split. Qed.



(** A consumer that stops after the first chunk: the chunk was yielded and
    not yet reported; the report comes when the generator is resumed. *)
Example first_chunk_is_reported_on_resumption :
  let rm := {| run_id := "run-1" |} in
  let first := next (_stream 0 "hi" None (Some rm) ∅) serving_world in
  let g := GenSuspended (Some rm) {| chunk_text := "Hel" |}
             [ {| choices := [ {| text := None |}; {| text := Some "x" |} ] |};
               {| choices := [ {| text := Some "lo" |} ] |} ] in
  first.1 = Return (Some {| chunk_text := "Hel" |}, g) ∧
  new_events serving_world first.2 =
    [EvSetConfig (Config.mk [davinci]);
     EvCreate (portkey.set_config (Config.mk [davinci]) (module serving_world))
       (Build_Request "hi" true None ∅);
     EvYield {| chunk_text := "Hel" |}] ∧
  new_events first.2 (next g first.2).2 =
    [EvOnLLMNewToken rm "Hel" {| chunk_text := "Hel" |};
     EvYield {| chunk_text := "" |}].
Proof. repeat split. Qed.

(** ** The import guard *)

(** Running a guarded operation when the package is there: every guard on
    the way passes, whatever was written to the world meanwhile. *)
Ltac guards_pass Himp :=
  unfold guarded_import, try_except_ImportError, import_from_portkey;
  cbn; rewrite ?Himp; cbn.

Lemma init_guarded mode api_key base_url :
  import_guarded (__init__ mode api_key base_url).
Proof.
  intros w. destruct (import_portkey w) as [m|] eqn:Himp.
  - by apply init_missing.
  - intros msg cause. by rewrite (init_run _ _ _ _ Himp).
Qed.

Lemma add_llms_guarded self llm_params :
  import_guarded (add_llms self llm_params).
Proof.
  intros w. destruct (import_portkey w) as [m|] eqn:Himp.
  - unfold add_llms. py_unfold. by rewrite (guarded_import_missing _ _ _ Himp).
  - intros msg cause. unfold add_llms, getattr, setattr, index0. py_unfold.
    guards_pass Himp.
    repeat (case_match; simplify_eq/=; try done).
Qed.

Lemma _client_guarded self : import_guarded (_client self).
Proof.
  intros w. destruct (import_portkey w) as [m|] eqn:Himp.
  - unfold _client. py_unfold. by rewrite (guarded_import_missing _ _ _ Himp).
  - intros msg cause. unfold _client, getattr. py_unfold.
    guards_pass Himp.
    repeat (case_match; simplify_eq/=; try done).
Qed.

Lemma _call_guarded self prompt stop run_manager kwargs :
  import_guarded (_call self prompt stop run_manager kwargs).
Proof.
  intros w. destruct (import_portkey w) as [m|] eqn:Himp.
  - unfold _call. py_unfold. by rewrite (guarded_import_missing _ _ _ Himp).
  - intros msg cause.
    destruct (heap w !! self) as [o|] eqn:Hself.
    + destruct (repeated_keyword ["prompt"; "stream"; "stop"] kwargs)
        as [k|] eqn:Hkw.
      * unfold _call, getattr. py_unfold. guards_pass Himp. rewrite Hself.
        rewrite (_client_run _ _ _ Himp Hself). cbn.
        erewrite _client_run by (cbn; eauto). cbn.
        unfold Completions_create. by rewrite Hkw.
      * rewrite (_call_run _ _ _ _ _ _ _ Himp Hself Hkw). cbn.
        repeat (case_match; simplify_eq/=; try done).
    + unfold _call, getattr. py_unfold. guards_pass Himp. by rewrite Hself.
Qed.

(** C3.  The constructor, [add_llms], [_call] and the [_client] property
    are guarded alike: each raises [ImportError] with exactly the message
    "Portkey is not installed.Please install it with `pip install
    portkey-ai`.", chained from the original error, and does nothing else,
    when the package cannot be imported, and raises no [ImportError] when
    it can.  Nothing else is handled: an exception of the gateway reaches
    the caller of [_call] or of the generator as it is. *)
Theorem import_error_is_the_only_failure_handled :
  let message :=
    "Portkey is not installed.Please install it with `pip install portkey-ai`." in
  (∀ mode api_key base_url,
     guarded_by message (__init__ mode api_key base_url)) ∧
  (∀ self llm_params, guarded_by message (add_llms self llm_params)) ∧
  (∀ self prompt stop run_manager kwargs,
     guarded_by message (_call self prompt stop run_manager kwargs)) ∧
  (∀ self, guarded_by message (_client self)) ∧
  (∀ w self o prompt stop run_manager kwargs e,
     import_portkey w = None →
     heap w !! self = Some o →
     repeated_keyword ["prompt"; "stream"; "stop"] kwargs = None →
     gateway w (portkey.set_config (Config.mk (Portkey.llms o)) (module w))
       (Build_Request prompt false stop kwargs) = inl e →
     (_call self prompt stop run_manager kwargs w).1 = Raise (PortkeyError e)) ∧
  (∀ w self o prompt stop run_manager kwargs e,
     import_portkey w = None →
     heap w !! self = Some o →
     repeated_keyword ["prompt"; "stream"; "stop"] kwargs = None →
     gateway w (portkey.set_config (Config.mk (Portkey.llms o)) (module w))
       (Build_Request prompt true stop kwargs) = inl e →
     (next (_stream self prompt stop run_manager kwargs) w).1
       = Raise (PortkeyError e)).
Proof.
  intros message.
  split; [exact init_guarded|].
  split; [exact add_llms_guarded|].
  split; [exact _call_guarded|].
  split; [exact _client_guarded|].
  split.
  - intros w self o prompt stop run_manager kwargs e Himp Hself Hkw Hgw.
    rewrite (_call_run _ _ _ _ _ _ _ Himp Hself Hkw). cbn. by rewrite Hgw.
  - intros w self o prompt stop run_manager kwargs e Himp Hself Hkw Hgw.
    rewrite (next_created_run _ _ _ _ _ _ _ Himp Hself Hkw). cbn.
    by rewrite Hgw.
Qed.

Lemma import_error_is_the_only_failure_handled_witness :
  let error :=
    ImportError
      "Portkey is not installed.Please install it with `pip install portkey-ai`."
      (Some (ImportError "No module named 'portkey'" None)) in
  __init__ "single" None None not_installed = (Raise error, not_installed) ∧
  add_llms 0 (inl davinci) not_installed = (Raise error, not_installed) ∧
  _call 0 "hi" None None ∅ not_installed = (Raise error, not_installed) ∧
  _client 0 not_installed = (Raise error, not_installed).
Proof.
  pose proof import_error_is_the_only_failure_handled
    as (Hinit & Hadd & Hcall & Hclient & _).
  split; [exact (Hinit "single" None None not_installed)|].
  split; [exact (Hadd 0 (inl davinci) not_installed)|].
  split; [exact (Hcall 0 "hi" None None ∅ not_installed)|].
  exact (Hclient 0 not_installed).
Defined.

(** ** The routing mode *)

(** C5, as amended.  The routing mode is written on the gateway client
    by the constructor and by nothing else: [_call] and a complete
    iteration of [_stream] leave [portkey.mode] as they found it, write it
    at no point, and every request they send runs under the mode the
    module held when they started. *)
Theorem mode_is_written_by_the_constructor_only
    w self mode api_key base_url prompt stop run_manager kwargs fuel :
  let after_init := (__init__ mode api_key base_url w).2 in
  let after_call := (_call self prompt stop run_manager kwargs w).2 in
  let after_stream :=
    (iterate fuel (_stream self prompt stop run_manager kwargs) w).2 in
  portkey.mode (module after_init) =
    match import_portkey w with
    | None => Some mode
    | Some _ => portkey.mode (module w)
    end ∧
  portkey.mode (module after_call) = portkey.mode (module w) ∧
  Forall (λ e, is_set_mode e = false) (new_events w after_call) ∧
  Forall (create_ran_under (portkey.mode (module w)))
    (new_events w after_call) ∧
  portkey.mode (module after_stream) = portkey.mode (module w) ∧
  Forall (λ e, is_set_mode e = false) (new_events w after_stream) ∧
  Forall (create_ran_under (portkey.mode (module w)))
    (new_events w after_stream).
Proof.
  intros after_init after_call after_stream.
  pose proof (_call_frame self prompt stop run_manager kwargs w) as Hcall.
  pose proof (iterate_frame fuel
                (_stream self prompt stop run_manager kwargs) w) as Hstream.
  unfold runs_within in Hcall.
  split.
  - unfold after_init. destruct (import_portkey w) as [m|] eqn:Himp.
    + by rewrite (init_missing _ _ _ _ _ Himp).
    + by rewrite (init_run _ _ _ _ Himp).
  - split; [exact (only_configures_mode _ _ _ _ Hcall)|].
    destruct (only_configures_events _ _ _ _ Hcall) as (? & ? & _).
    split; [done|]. split; [done|].
    split; [exact (only_configures_mode _ _ _ _ Hstream)|].
    by destruct (only_configures_events _ _ _ _ Hstream) as (? & ? & _).
Qed.

Lemma mode_not_set_by_call :
  Portkey.mode <$> heap shared_world !! 0 = Some (Some "single") ∧
  portkey.mode (module shared_world) = Some "fallback" ∧
  (_call 0 "hi" None None ∅ shared_world).1 = Return "fallback" ∧
  new_events shared_world (_call 0 "hi" None None ∅ shared_world).2 =
    [EvSetConfig (Config.mk []); EvSetConfig (Config.mk []);
     EvSetConfig (Config.mk []);
     EvCreate
       (portkey.mk (Some "PORTKEY_API_KEY") None (Some "fallback")
          (Some (Config.mk [])))
       (Build_Request "hi" false None ∅)] ∧
  ¬ mode_set_by_every_call.
Proof.
  repeat split.
  intros Hclaim.
  destruct (Hclaim shared_world 0 "hi" None None ∅) as [v Hin].
  change (new_events shared_world (_call 0 "hi" None None ∅ shared_world).2)
    with [EvSetConfig (Config.mk []); EvSetConfig (Config.mk []);
          EvSetConfig (Config.mk []);
          EvCreate
            (portkey.mk (Some "PORTKEY_API_KEY") None (Some "fallback")
               (Some (Config.mk [])))
            (Build_Request "hi" false None ∅)] in Hin.
  rewrite !elem_of_cons, elem_of_nil in Hin.
  repeat (destruct Hin as [Hin|Hin]; [discriminate|]). done.
Qed.

(** ** The configuration sent with a request *)

Lemma add_llms_llms w self o llm_params :
  import_portkey w = None →
  heap w !! self = Some o →
  ∃ o1,
    heap (add_llms self llm_params w).2 !! self = Some o1 ∧
    Portkey.llms o1 = Portkey.llms o ++ as_list llm_params ∧
    import_portkey (add_llms self llm_params w).2 = None ∧
    module (add_llms self llm_params w).2 = module w ∧
    events (add_llms self llm_params w).2 = events w.
Proof.
  intros Himp Hself.
  destruct (Portkey.model o) as [m|] eqn:Hm;
    [|destruct (Portkey.llms o ++ as_list llm_params)
        as [|first others] eqn:Hl].
  - rewrite (add_llms_run _ _ _ _ Himp Hself) by (left; congruence).
    eexists; split; [exact (lookup_insert_self _ _ _ _ Hself)|done].
  - rewrite (add_llms_nothing _ _ _ _ Himp Hself Hm Hl).
    exists o. by apply app_eq_nil in Hl as [Hl _].
  - rewrite (add_llms_run _ _ _ _ Himp Hself) by (right; congruence).
    eexists; split; [exact (lookup_insert_self _ _ _ _ Hself)|].
    by rewrite <- Hl.
Qed.

(** C6.  On a live adapter with the package installed, every access of
    [_client] rebuilds [portkey.config] as [Config(llms=self.llms)], and
    changes nothing else of the module; the request of [_call] and the
    request of [_stream] are sent right after such a rebuild, so the
    gateway finds [portkey.config] made of the adapter's current [llms];
    and the parameter sets given to an [add_llms] are in the configuration
    of the very next request, plain or streamed. *)
Theorem config_rebuilt_before_every_request
    w self o prompt stop run_manager kwargs llm_params :
  let holding llms :=
    {| portkey.api_key := portkey.api_key (module w);
       portkey.base_url := portkey.base_url (module w);
       portkey.mode := portkey.mode (module w);
       portkey.config := Some (Config.mk llms) |} in
  let cfg := Config.mk (Portkey.llms o) in
  let cfg' := Config.mk (Portkey.llms o ++ as_list llm_params) in
  let w1 := (add_llms self llm_params w).2 in
  import_portkey w = None →
  heap w !! self = Some o →
  repeated_keyword ["prompt"; "stream"; "stop"] kwargs = None →
  (_client self w).1 = Return portkey_module ∧
  module (_client self w).2 = holding (Portkey.llms o) ∧
  portkey.config (module (_client self w).2) =
    Some (Config.mk (Portkey.llms o)) ∧
  new_events w (_client self w).2 = [EvSetConfig cfg] ∧
  new_events w (_call self prompt stop run_manager kwargs w).2 =
    [EvSetConfig cfg; EvSetConfig cfg; EvSetConfig cfg;
     EvCreate (holding (Portkey.llms o))
       (Build_Request prompt false stop kwargs)] ∧
  (∃ yielded,
     new_events w (next (_stream self prompt stop run_manager kwargs) w).2 =
       [EvSetConfig cfg;
        EvCreate (holding (Portkey.llms o))
          (Build_Request prompt true stop kwargs)]
       ++ yielded) ∧
  new_events w1 (_call self prompt stop run_manager kwargs w1).2 =
    [EvSetConfig cfg'; EvSetConfig cfg'; EvSetConfig cfg';
     EvCreate (holding (Portkey.llms o ++ as_list llm_params))
       (Build_Request prompt false stop kwargs)] ∧
  (∃ yielded,
     new_events w1 (next (_stream self prompt stop run_manager kwargs) w1).2 =
       [EvSetConfig cfg';
        EvCreate (holding (Portkey.llms o ++ as_list llm_params))
          (Build_Request prompt true stop kwargs)]
       ++ yielded).
Proof.
  intros holding cfg cfg' w1 Himp Hself Hkw.
  assert (Hholding : ∀ llms,
    holding llms = portkey.set_config (Config.mk llms) (module w)) by done.
  rewrite !Hholding. clear Hholding holding.
  assert (Hstream : ∀ w0 o0,
    import_portkey w0 = None → heap w0 !! self = Some o0 →
    ∃ yielded,
      new_events w0 (next (_stream self prompt stop run_manager kwargs) w0).2 =
        [EvSetConfig (Config.mk (Portkey.llms o0));
         EvCreate (portkey.set_config (Config.mk (Portkey.llms o0)) (module w0))
           (Build_Request prompt true stop kwargs)] ++ yielded).
  { intros w0 o0 Himp0 Hself0.
    rewrite (next_created_run _ _ _ _ _ _ _ Himp0 Hself0 Hkw).
    destruct (gateway w0 _ _) as [e|tokens].
    - exists []. by apply new_events_app.
    - pose proof (for_token_frame run_manager tokens
        (requested 1 (Portkey.llms o0)
           (Build_Request prompt true stop kwargs) w0))
        as (_ & _ & _ & _ & _ & _ & l & He & _).
      exists l. apply new_events_app. rewrite He. cbn.
      by rewrite <- !app_assoc. }
  rewrite (_client_run _ _ _ Himp Hself). cbn [fst snd].
  split; [done|]. split; [done|]. split; [done|].
  split; [by apply new_events_app|].
  split.
  { rewrite (_call_run _ _ _ _ _ _ _ Himp Hself Hkw). by apply new_events_app. }
  split; [exact (Hstream _ _ Himp Hself)|].
  destruct (add_llms_llms w self o llm_params Himp Hself)
    as (o1 & Hself1 & Hllms & Himp1 & Hmod & _).
  fold w1 in Hself1, Himp1, Hmod.
  split.
  - rewrite (_call_run _ _ _ _ _ _ _ Himp1 Hself1 Hkw).
    apply new_events_app. cbn. by rewrite Hllms, Hmod.
  - destruct (Hstream _ _ Himp1 Hself1) as [yielded Hy].
    exists yielded. by rewrite Hy, Hllms, Hmod.
Qed.

Lemma config_rebuilt_before_every_request_witness :
  let holding llms :=
    {| portkey.api_key := Some "PORTKEY_API_KEY";
       portkey.base_url := None;
       portkey.mode := Some "single";
       portkey.config := Some (Config.mk llms) |} in
  (_client 0 fresh_world).1 = Return portkey_module ∧
  module (_client 0 fresh_world).2 = holding [] ∧
  portkey.config (module (_client 0 fresh_world).2) = Some (Config.mk []) ∧
  new_events fresh_world (_client 0 fresh_world).2 =
    [EvSetConfig (Config.mk [])] ∧
  new_events fresh_world (_call 0 "hi" None None ∅ fresh_world).2 =
    [EvSetConfig (Config.mk []); EvSetConfig (Config.mk []);
     EvSetConfig (Config.mk []);
     EvCreate (holding []) (Build_Request "hi" false None ∅)] ∧
  (∃ yielded,
     new_events fresh_world (next (_stream 0 "hi" None None ∅) fresh_world).2 =
       [EvSetConfig (Config.mk []);
        EvCreate (holding []) (Build_Request "hi" true None ∅)]
       ++ yielded) ∧
  new_events serving_world (_call 0 "hi" None None ∅ serving_world).2 =
    [EvSetConfig (Config.mk [davinci]); EvSetConfig (Config.mk [davinci]);
     EvSetConfig (Config.mk [davinci]);
     EvCreate (holding [davinci]) (Build_Request "hi" false None ∅)] ∧
  (∃ yielded,
     new_events serving_world
       (next (_stream 0 "hi" None None ∅) serving_world).2 =
       [EvSetConfig (Config.mk [davinci]);
        EvCreate (holding [davinci]) (Build_Request "hi" true None ∅)]
       ++ yielded).
Proof.
  exact (config_rebuilt_before_every_request fresh_world 0
           (Portkey.mk (Some "single") None ∅ false [] portkey_module)
           "hi" None None ∅ (inl davinci) eq_refl eq_refl eq_refl).
Defined.

(** ** The adapter after a request *)

(** C7.  Whatever happens, [_call] and an iteration of [_stream] leave
    every adapter as it was, [llms], [mode], [model] and [streaming]
    included, and call [Completions.create] at most once; exactly once
    when [_call] returns or the iteration reaches its end. *)
Theorem requests_leave_the_adapter_unchanged
    w self prompt stop run_manager kwargs fuel :
  let called := _call self prompt stop run_manager kwargs w in
  let streamed :=
    iterate fuel (_stream self prompt stop run_manager kwargs) w in
  heap called.2 = heap w ∧
  (if returned called.1
   then creates (new_events w called.2) = 1
   else creates (new_events w called.2) ≤ 1) ∧
  heap streamed.2 = heap w ∧
  (if completed streamed.1
   then creates (new_events w streamed.2) = 1
   else creates (new_events w streamed.2) ≤ 1).
Proof.
  intros called streamed.
  pose proof (_call_frame self prompt stop run_manager kwargs w) as Hcall.
  pose proof (iterate_frame fuel
                (_stream self prompt stop run_manager kwargs) w) as Hstream.
  unfold runs_within in Hcall. fold called in Hcall. fold streamed in Hstream.
  split; [exact (only_configures_heap _ _ _ _ Hcall)|].
  destruct (only_configures_events _ _ _ _ Hcall) as (_ & _ & Hle & Heq).
  split; [destruct (returned called.1); auto|].
  split; [exact (only_configures_heap _ _ _ _ Hstream)|].
  destruct (only_configures_events _ _ _ _ Hstream) as (_ & _ & Hle' & Heq').
  cbn in Hle', Heq'. destruct (completed streamed.1); auto.
Qed.

(** ** The life of an adapter *)


Lemma caught_fst {A} (r : outcome A * World) :
  (prod_map returned id r).1 = returned r.1.
Proof. by destruct r. Qed.

Lemma caught_snd {A} (r : outcome A * World) :
  (prod_map returned id r).2 = r.2.
Proof. by destruct r. Qed.

(** One step leaves [self] as it is, unless it is an [add_llms] that
    returned, which extends it. *)
Lemma perform_self self op w o :
  heap w !! self = Some o →
  ∃ o',
    heap (perform self op w).2 !! self = Some o' ∧
    match op, (perform self op w).1 with
    | OpAddLlms llm_params, true =>
        o' = extended (as_list llm_params) o ∧
        (Portkey.model o ≠ None ∨
         Portkey.llms o ++ as_list llm_params ≠ [])
    | _, _ => o' = o
    end.
Proof.
  intros Hself.
  destruct op as [llm_params|prompt stop run_manager kwargs
                 |prompt stop run_manager kwargs fuel| |status
                 |mode api_key base_url]; cbn [perform];
    rewrite ?caught_fst, ?caught_snd.
  - destruct (import_portkey w) as [m|] eqn:Himp.
    { rewrite (add_llms_missing _ _ _ _ Himp). by exists o. }
    destruct (Portkey.model o) as [m|] eqn:Hm;
      [|destruct (Portkey.llms o ++ as_list llm_params)
          as [|first others] eqn:Hl].
    + rewrite (add_llms_run _ _ _ _ Himp Hself) by (left; congruence).
      eexists; split; [exact (lookup_insert_self _ _ _ _ Hself)|].
      cbn. split; [done|]. left. congruence.
    + rewrite (add_llms_nothing _ _ _ _ Himp Hself Hm Hl). by exists o.
    + rewrite (add_llms_run _ _ _ _ Himp Hself) by (right; congruence).
      eexists; split; [exact (lookup_insert_self _ _ _ _ Hself)|].
      cbn. split; [done|]. right. congruence.
  - pose proof (_call_frame self prompt stop run_manager kwargs w) as Hf.
    apply only_configures_heap in Hf. exists o. rewrite Hf.
    split; [done|]. lazy beta iota. done.
  - pose proof (iterate_frame fuel
                  (_stream self prompt stop run_manager kwargs) w) as Hf.
    apply only_configures_heap in Hf. exists o. rewrite Hf.
    split; [done|]. lazy beta iota. done.
  - pose proof (_client_frame self w) as Hf.
    apply only_configures_heap in Hf. exists o. rewrite Hf.
    split; [done|]. lazy beta iota. done.
  - by exists o.
  - exists o. destruct (import_portkey w) as [m|] eqn:Himp.
    + by rewrite (init_missing _ _ _ _ _ Himp).
    + rewrite (init_run _ _ _ _ Himp). cbn. split; [|done].
      by apply lookup_app_l_Some.
Qed.

Lemma extended_model params o :
  Portkey.model o = LLMOptions.model <$> head (Portkey.llms o) →
  Portkey.model (extended params o) =
    LLMOptions.model <$> head (Portkey.llms (extended params o)).
Proof.
  intros Hm. cbn. rewrite Hm.
  by destruct (Portkey.llms o) as [|first others].
Qed.

Lemma perform_all_self self ops :
  ∀ w o,
    heap w !! self = Some o →
    Portkey.model o = LLMOptions.model <$> head (Portkey.llms o) →
    ∃ o',
      heap (perform_all self ops w).2 !! self = Some o' ∧
      Portkey.llms o' = Portkey.llms o ++ added (perform_all self ops w).1 ∧
      Portkey.model o' = LLMOptions.model <$> head (Portkey.llms o') ∧
      (Portkey.llms o = [] →
       added (perform_all self ops w).1 = [] ↔
       Forall (λ s, is_successful_add s = false) (perform_all self ops w).1).
Proof.
  induction ops as [|op ops IH]; intros w o Hself Hmodel.
  { exists o. cbn. by rewrite app_nil_r. }
  cbn [perform_all].
  destruct (perform_self self op w o Hself) as (o1 & Hself1 & Hstep).
  destruct (perform self op w) as [ok w1] eqn:Hperform. cbn in Hself1, Hstep.
  assert (Hcases :
    (is_successful_add (op, ok) = true ∧
     o1 = extended (added_by (op, ok)) o ∧
     (Portkey.model o ≠ None ∨ Portkey.llms o ++ added_by (op, ok) ≠ [])) ∨
    (is_successful_add (op, ok) = false ∧ added_by (op, ok) = [] ∧ o1 = o)).
  { destruct op, ok; cbn in *; rewrite ?Hperform in Hstep; cbn in Hstep;
      try (right; by repeat split).
    left. by destruct Hstep. }
  assert (Hmodel1 :
    Portkey.model o1 = LLMOptions.model <$> head (Portkey.llms o1)).
  { destruct Hcases as [(_ & -> & _)|(_ & _ & ->)]; [|done].
    by apply extended_model. }
  destruct (IH w1 o1 Hself1 Hmodel1) as (o' & Hself' & Hllms & Hmodel' & Hiff).
  destruct (perform_all self ops w1) as [log w2]. cbn [fst snd] in *.
  change (added ((op, ok) :: log)) with (added_by (op, ok) ++ added log).
  exists o'. split; [done|]. split; [|split; [done|]].
  - rewrite Hllms.
    destruct Hcases as [(_ & -> & _)|(_ & -> & ->)].
    + cbn. by rewrite <- app_assoc.
    + done.
  - intros Hnil. rewrite Forall_cons.
    destruct Hcases as [(Hadd & -> & Hok)|(Hadd & Hby & ->)].
    + rewrite Hadd. split; [|by intros [? _]].
      intros [Hby _]%app_eq_nil. destruct Hok as [Hm|Hne].
      * by rewrite Hmodel, Hnil in Hm.
      * by rewrite Hnil, Hby in Hne.
    + rewrite Hby, Hadd. cbn [app]. rewrite (Hiff Hnil).
      split; [by split|by intros [_ ?]].
Qed.

(** C9.  The declared default of [model] is ["gpt-3.5-turbo"], and right
    after the constructor [model] is [None].  Over any life of the adapter
    after that, [llms] is what the [add_llms] calls that returned have
    added, in order, [model] is the model of the first parameter set so
    added, and [model] is [None] exactly as long as no [add_llms] call has
    returned. *)
Theorem model_comes_from_the_first_add w mode api_key base_url ops :
  let self : addr := length (heap w) in
  let w0 := (__init__ mode api_key base_url w).2 in
  let life := perform_all self ops w0 in
  import_portkey w = None →
  Unbuilt.model Unbuilt.defaults = Some "gpt-3.5-turbo" ∧
  Portkey.model <$> heap w0 !! self = Some None ∧
  Portkey.llms <$> heap life.2 !! self = Some (added life.1) ∧
  Portkey.model <$> heap life.2 !! self =
    Some (LLMOptions.model <$> head (added life.1)) ∧
  (Portkey.model <$> heap life.2 !! self = Some None ↔
   Forall (λ s, is_successful_add s = false) life.1).
Proof.
  intros self w0 life Himp.
  assert (Hself : heap w0 !! self =
    Some (Portkey.mk (Some mode) None ∅ false [] portkey_module)).
  { unfold w0. rewrite (init_run _ _ _ _ Himp). apply alloc_lookup. }
  destruct (perform_all_self self ops w0 _ Hself eq_refl)
    as (o' & Hself' & Hllms & Hmodel & Hiff).
  cbn in Hllms. unfold life.
  split; [done|]. split; [by rewrite Hself|].
  rewrite Hself'. cbn. rewrite Hmodel, Hllms.
  split; [done|]. split; [done|].
  rewrite <- (Hiff eq_refl).
  destruct (added _); cbn; split; by intros [=].
Qed.

Lemma model_comes_from_the_first_add_witness :
  let life := perform_all 0 sample_life fresh_world in
  Unbuilt.model Unbuilt.defaults = Some "gpt-3.5-turbo" ∧
  Portkey.model <$> heap fresh_world !! 0 = Some None ∧
  Portkey.llms <$> heap life.2 !! 0 = Some (added life.1) ∧
  Portkey.model <$> heap life.2 !! 0 =
    Some (LLMOptions.model <$> head (added life.1)) ∧
  (Portkey.model <$> heap life.2 !! 0 = Some None ↔
   Forall (λ s, is_successful_add s = false) life.1).
Proof.
  exact (model_comes_from_the_first_add sample_world "single"
           (Some "PORTKEY_API_KEY") None sample_life eq_refl).
Defined.

Example sample_life_model :
  let life := perform_all 0 sample_life fresh_world in
  life.1.*2 = [true; false; true; true; false; true; true; true] ∧
  added life.1 = [davinci; claude; claude] ∧
  Portkey.model <$> heap life.2 !! 0 = Some (Some "text-davinci-003").
Proof. repeat split. Qed.

(** * More about the code *)

(** ** [add_llms], all of it *)

Lemma add_llms_table w self o llm_params :
  import_portkey w = None →
  heap w !! self = Some o →
  add_llms self llm_params w =
    match Portkey.model o, Portkey.llms o ++ as_list llm_params with
    | None, [] => (Raise (IndexError "list index out of range"), w)
    | _, _ =>
        (Return self,
         with_heap (<[self := extended (as_list llm_params) o]> (heap w)) w)
    end.
Proof.
  intros Himp Hself.
  destruct (Portkey.model o) as [m|] eqn:Hm;
    [|destruct (Portkey.llms o ++ as_list llm_params)
        as [|first others] eqn:Hl].
  - apply (add_llms_run _ _ o); [done..|]. left. congruence.
  - by apply (add_llms_nothing _ _ o).
  - apply (add_llms_run _ _ o); [done..|]. right. congruence.
Qed.

(** X1.  On a live adapter with the package installed, [add_llms] raises
    [IndexError] and changes nothing when there is no model yet and the
    list is still empty after the extension; in every other case it returns
    [self], with the parameter sets at the end of [llms] and a [model] that
    was [None] set to the first entry's. *)
Theorem add_llms_outcome w self o llm_params :
  import_portkey w = None →
  heap w !! self = Some o →
  add_llms self llm_params w =
    match Portkey.model o, Portkey.llms o ++ as_list llm_params with
    | None, [] => (Raise (IndexError "list index out of range"), w)
    | _, _ =>
        (Return self,
         with_heap (<[self := extended (as_list llm_params) o]> (heap w)) w)
    end.
Proof. exact (add_llms_table w self o llm_params). Qed.

Lemma add_llms_outcome_witness :
  add_llms 0 (inr [claude; davinci]) serving_world =
    (Return 0,
     with_heap
       [Portkey.mk (Some "single") (Some "text-davinci-003") ∅ false
          [davinci; claude; davinci] portkey_module]
       serving_world).
Proof.
  exact (add_llms_outcome serving_world 0
           (Portkey.mk (Some "single") (Some "text-davinci-003") ∅ false
              [davinci] portkey_module)
           (inr [claude; davinci]) eq_refl eq_refl).
Defined.

(** X2.  An [add_llms] that raises, for whatever reason, leaves the whole
    world as it found it: no parameter set is half added. *)
Theorem add_llms_failure_is_atomic w self llm_params e :
  (add_llms self llm_params w).1 = Raise e →
  (add_llms self llm_params w).2 = w.
Proof.
  destruct (import_portkey w) as [m|] eqn:Himp.
  { by rewrite (add_llms_missing _ _ _ _ Himp). }
  destruct (heap w !! self) as [o|] eqn:Hself.
  2: { by rewrite (add_llms_dangling _ _ _ Himp Hself). }
  destruct (Portkey.model o) as [m|] eqn:Hm;
    [|destruct (Portkey.llms o ++ as_list llm_params)
        as [|first others] eqn:Hl].
  - by rewrite (add_llms_run _ _ _ _ Himp Hself) by (left; congruence).
  - by rewrite (add_llms_nothing _ _ _ _ Himp Hself Hm Hl).
  - by rewrite (add_llms_run _ _ _ _ Himp Hself) by (right; congruence).
Qed.

Lemma add_llms_failure_is_atomic_witness :
  (add_llms 0 (inr []) fresh_world).2 = fresh_world ∧
  (add_llms 0 (inl davinci) not_installed).2 = not_installed.
Proof.
  split.
  - exact (add_llms_failure_is_atomic fresh_world 0 (inr [])
             (IndexError "list index out of range") eq_refl).
  - exact (add_llms_failure_is_atomic not_installed 0 (inl davinci)
             (ImportError IMPORT_ERROR_MESSAGE
                (Some (ImportError "No module named 'portkey'" None)))
             eq_refl).
Defined.

(** X3.  Whatever happens, [add_llms] writes nothing on the gateway module,
    sends no request, logs nothing, and makes or drops no adapter. *)
Theorem add_llms_stays_off_the_gateway w self llm_params :
  let w' := (add_llms self llm_params w).2 in
  module w' = module w ∧
  events w' = events w ∧
  import_portkey w' = import_portkey w ∧
  gateway w' = gateway w ∧
  length (heap w') = length (heap w).
Proof.
  intros w'. unfold w'.
  destruct (import_portkey w) as [m|] eqn:Himp.
  { by rewrite (add_llms_missing _ _ _ _ Himp). }
  destruct (heap w !! self) as [o|] eqn:Hself.
  2: { by rewrite (add_llms_dangling _ _ _ Himp Hself). }
  rewrite (add_llms_table _ _ _ _ Himp Hself).
  destruct (Portkey.model o), (Portkey.llms o ++ as_list llm_params);
    cbn; rewrite ?length_insert; done.
Qed.

(** X4.  Two additions in a row are one addition of the two lists put
    together, results and worlds alike, as soon as the first one has
    something to name the model after. *)
Theorem add_llms_twice_is_once w self o a b :
  import_portkey w = None →
  heap w !! self = Some o →
  Portkey.model o ≠ None ∨ Portkey.llms o ++ a ≠ [] →
  (add_llms self (inr a) ;; add_llms self (inr b)) w
    = add_llms self (inr (a ++ b)) w.
Proof. exact (add_llms_app w self o a b). Qed.

Lemma add_llms_twice_is_once_witness :
  (add_llms 0 (inr [davinci]) ;; add_llms 0 (inr [claude])) fresh_world
    = add_llms 0 (inr ([davinci] ++ [claude])) fresh_world.
Proof.
  refine (add_llms_twice_is_once fresh_world 0
            (Portkey.mk (Some "single") None ∅ false [] portkey_module)
            [davinci] [claude] eq_refl eq_refl _).
  right. discriminate.
Defined.

(** X5.  When the caller catches what the first addition raises and goes
    on with the second, the adapters end up as after the single addition of
    both lists, in every world and for every pair of lists. *)
Theorem add_llms_grouping_leaves_the_same_adapters w self a b :
  heap (add_llms self (inr b) (add_llms self (inr a) w).2).2 =
  heap (add_llms self (inr (a ++ b)) w).2.
Proof. exact (add_llms_regrouped w self a b). Qed.

(** ** Requests that go wrong *)

Lemma _call_repeated w self o prompt stop run_manager kwargs k :
  import_portkey w = None →
  heap w !! self = Some o →
  repeated_keyword ["prompt"; "stream"; "stop"] kwargs = Some k →
  _call self prompt stop run_manager kwargs w =
    (Raise (TypeError k),
     with_events
       (events w ++ replicate 3 (EvSetConfig (Config.mk (Portkey.llms o))))
       (with_module
          (portkey.set_config (Config.mk (Portkey.llms o)) (module w)) w)).
Proof.
  intros Himp Hself Hkw. unfold _call, getattr. py_unfold.
  rewrite (guarded_import_ok _ _ Himp). cbn. rewrite Hself.
  rewrite (_client_run _ _ _ Himp Hself). cbn.
  erewrite _client_run by (cbn; eauto). cbn.
  unfold Completions_create. rewrite Hkw. cbn.
  by rewrite <- !app_assoc.
Qed.

Lemma next_repeated w self o prompt stop run_manager kwargs k :
  import_portkey w = None →
  heap w !! self = Some o →
  repeated_keyword ["prompt"; "stream"; "stop"] kwargs = Some k →
  next (_stream self prompt stop run_manager kwargs) w =
    (Raise (TypeError k),
     with_events
       (events w ++ [EvSetConfig (Config.mk (Portkey.llms o))])
       (with_module
          (portkey.set_config (Config.mk (Portkey.llms o)) (module w)) w)).
Proof.
  intros Himp Hself Hkw. unfold _stream, next. py_unfold.
  rewrite (_client_run _ _ _ Himp Hself). cbn.
  unfold Completions_create. by rewrite Hkw.
Qed.

(** X6.  A [stream] among the extra keyword arguments never reaches the
    gateway: [_call] and the first [next] of [_stream] raise [TypeError],
    for the keyword [stream] given twice, after the configuration was
    rebuilt, and no [Completions.create] call is made. *)
Theorem repeated_keyword_sends_no_request
    w self o prompt stop run_manager kwargs v :
  let called := _call self prompt stop run_manager kwargs w in
  let started := next (_stream self prompt stop run_manager kwargs) w in
  import_portkey w = None →
  heap w !! self = Some o →
  extra_keywords kwargs →
  kwargs !! "stream" = Some v →
  called.1 = Raise (TypeError "stream") ∧
  new_events w called.2 =
    replicate 3 (EvSetConfig (Config.mk (Portkey.llms o))) ∧
  creates (new_events w called.2) = 0 ∧
  started.1 = Raise (TypeError "stream") ∧
  new_events w started.2 = [EvSetConfig (Config.mk (Portkey.llms o))] ∧
  creates (new_events w started.2) = 0.
Proof.
  intros called started Himp Hself (Hprompt & _ & _) Hstream.
  assert (Hkw :
    repeated_keyword ["prompt"; "stream"; "stop"] kwargs = Some "stream").
  { unfold repeated_keyword. cbn. by rewrite Hprompt, Hstream. }
  unfold called, started.
  rewrite (_call_repeated _ _ _ _ _ _ _ _ Himp Hself Hkw).
  rewrite (next_repeated _ _ _ _ _ _ _ _ Himp Hself Hkw). cbn [fst snd].
  rewrite (new_events_app w _
             (replicate 3 (EvSetConfig (Config.mk (Portkey.llms o)))))
    by done.
  by rewrite (new_events_app w _ [EvSetConfig (Config.mk (Portkey.llms o))])
    by done.
Qed.

Lemma repeated_keyword_sends_no_request_witness :
  let called := _call 0 "hi" None None {[ "stream" := PyBool true ]}
                  serving_world in
  let started := next (_stream 0 "hi" None None {[ "stream" := PyBool true ]})
                   serving_world in
  called.1 = Raise (TypeError "stream") ∧
  new_events serving_world called.2 =
    replicate 3 (EvSetConfig (Config.mk [davinci])) ∧
  creates (new_events serving_world called.2) = 0 ∧
  started.1 = Raise (TypeError "stream") ∧
  new_events serving_world started.2 = [EvSetConfig (Config.mk [davinci])] ∧
  creates (new_events serving_world started.2) = 0.
Proof.
  refine (repeated_keyword_sends_no_request serving_world 0
            (Portkey.mk (Some "single") (Some "text-davinci-003") ∅ false
               [davinci] portkey_module)
            "hi" None None {[ "stream" := PyBool true ]} (PyBool true)
            eq_refl eq_refl _ eq_refl).
  repeat split.
Defined.

(** X7.  When the gateway answers a plain request with no choice at all,
    [_call] raises [IndexError]: the request was sent, once, and nothing
    is returned. *)
Theorem call_without_choices_raises
    w self o prompt stop run_manager kwargs response :
  let cfg := Config.mk (Portkey.llms o) in
  let m := portkey.set_config cfg (module w) in
  let req := Build_Request prompt false stop kwargs in
  import_portkey w = None →
  heap w !! self = Some o →
  repeated_keyword ["prompt"; "stream"; "stop"] kwargs = None →
  gateway w m req = inr response →
  choices response = [] →
  ∃ w',
    _call self prompt stop run_manager kwargs w
      = (Raise (IndexError "list index out of range"), w') ∧
    events w' = events w ++
      [EvSetConfig cfg; EvSetConfig cfg; EvSetConfig cfg; EvCreate m req] ∧
    heap w' = heap w.
Proof.
  intros cfg m req Himp Hself Hkw Hgw Hch.
  rewrite (_call_run _ _ _ _ _ _ _ Himp Hself Hkw).
  fold req cfg m. rewrite Hgw, Hch. by eexists.
Qed.

Lemma call_without_choices_raises_witness :
  ∃ w',
    _call 0 "hi" None None ∅ choiceless_world
      = (Raise (IndexError "list index out of range"), w') ∧
    events w' = events choiceless_world ++
      [EvSetConfig (Config.mk [davinci]); EvSetConfig (Config.mk [davinci]);
       EvSetConfig (Config.mk [davinci]);
       EvCreate
         (portkey.set_config (Config.mk [davinci]) (module choiceless_world))
         (Build_Request "hi" false None ∅)] ∧
    heap w' = heap choiceless_world.
Proof.
  exact (call_without_choices_raises choiceless_world 0
           (Portkey.mk (Some "single") (Some "text-davinci-003") ∅ false
              [davinci] portkey_module)
           "hi" None None ∅ {| choices := [] |}
           eq_refl eq_refl eq_refl eq_refl eq_refl).
Defined.

Lemma next_missing w self prompt stop run_manager kwargs m :
  import_portkey w = Some m →
  next (_stream self prompt stop run_manager kwargs) w =
    (Raise (ImportError IMPORT_ERROR_MESSAGE (Some (ImportError m None))), w).
Proof.
  intros Himp. unfold _stream, next, _client. py_unfold.
  by rewrite (guarded_import_missing _ _ _ Himp).
Qed.

(** X8.  [_stream] has no guard of its own and runs nothing when it is
    called: with the package missing, it is the first [next] of the
    generator that raises the adapter's [ImportError], chained from the
    original one, with the world untouched, and so does every iteration. *)
Theorem stream_guard_fires_on_first_next
    w self prompt stop run_manager kwargs m fuel :
  import_portkey w = Some m →
  next (_stream self prompt stop run_manager kwargs) w =
    (Raise (ImportError IMPORT_ERROR_MESSAGE (Some (ImportError m None))),
     w) ∧
  iterate (S fuel) (_stream self prompt stop run_manager kwargs) w =
    (Raise (ImportError IMPORT_ERROR_MESSAGE (Some (ImportError m None))),
     w).
Proof.
  intros Himp. split; [by apply next_missing|].
  by rewrite iterate_S, (next_missing _ _ _ _ _ _ _ Himp).
Qed.

Lemma stream_guard_fires_on_first_next_witness :
  next (_stream 0 "hi" None None ∅) not_installed =
    (Raise (ImportError IMPORT_ERROR_MESSAGE
              (Some (ImportError "No module named 'portkey'" None))),
     not_installed) ∧
  iterate 3 (_stream 0 "hi" None None ∅) not_installed =
    (Raise (ImportError IMPORT_ERROR_MESSAGE
              (Some (ImportError "No module named 'portkey'" None))),
     not_installed).
Proof.
  exact (stream_guard_fires_on_first_next not_installed 0 "hi" None None ∅
           "No module named 'portkey'" 2 eq_refl).
Defined.

(** ** Streams that end early *)

Lemma next_suspended run_manager chunk token rest w :
  choices token ≠ [] →
  next (GenSuspended run_manager chunk (token :: rest)) w =
    (Return (Some (chunk_of token),
             GenSuspended run_manager (chunk_of token) rest),
     with_events (events w ++ callback_events run_manager chunk
                    ++ [EvYield (chunk_of token)]) w).
Proof.
  intros Hne. unfold next. py_unfold.
  destruct run_manager; cbn -[for_token].
  - rewrite for_token_cons by done. cbn. by rewrite <- app_assoc.
  - by rewrite for_token_cons.
Qed.

Lemma next_suspended_bad run_manager chunk token rest w :
  choices token = [] →
  next (GenSuspended run_manager chunk (token :: rest)) w =
    (Raise (IndexError "list index out of range"),
     with_events (events w ++ callback_events run_manager chunk) w).
Proof.
  intros Hbad. unfold next, for_token. py_unfold.
  destruct run_manager; cbn; rewrite Hbad; cbn; [done|].
  by rewrite app_nil_r, with_events_id.
Qed.

Lemma iterate_suspended_bad run_manager bad rest good :
  ∀ fuel chunk w,
    Forall (λ t, choices t ≠ []) good →
    choices bad = [] →
    length good < fuel →
    iterate fuel (GenSuspended run_manager chunk (good ++ bad :: rest)) w =
      (Raise (IndexError "list index out of range"),
       with_events (events w ++ callback_events run_manager chunk
                      ++ stream_events run_manager good) w).
Proof.
  induction good as [|token good IH]; intros fuel chunk w Hall Hbad Hfuel;
    (destruct fuel as [|fuel]; [simpl in Hfuel; lia|]); rewrite iterate_S.
  - cbn [app]. rewrite (next_suspended_bad _ _ _ _ _ Hbad). cbn.
    by rewrite app_nil_r.
  - apply Forall_cons in Hall as [Hne Hall].
    change ((token :: good) ++ bad :: rest)
      with (token :: (good ++ bad :: rest)).
    rewrite (next_suspended _ _ _ _ _ Hne).
    rewrite IH by (done || simpl in Hfuel; lia).
    change (stream_events run_manager (token :: good)) with
      ([EvYield (chunk_of token)]
         ++ callback_events run_manager (chunk_of token)
         ++ stream_events run_manager good).
    destruct w; cbn. by rewrite <- ?app_assoc.
Qed.

(** X9.  When a token of the stream has no choice, the iteration raises
    [IndexError] there: the chunks of the tokens before it were yielded and
    reported, each in its turn, and the tokens after it are never looked
    at. *)
Theorem stream_stops_at_a_token_without_choices
    w self o prompt stop run_manager kwargs good bad rest fuel :
  let cfg := Config.mk (Portkey.llms o) in
  let m := portkey.set_config cfg (module w) in
  let req := Build_Request prompt true stop kwargs in
  import_portkey w = None →
  heap w !! self = Some o →
  repeated_keyword ["prompt"; "stream"; "stop"] kwargs = None →
  gateway w m req = inr (good ++ bad :: rest) →
  Forall (λ t, choices t ≠ []) good →
  choices bad = [] →
  length good < fuel →
  ∃ w',
    iterate fuel (_stream self prompt stop run_manager kwargs) w
      = (Raise (IndexError "list index out of range"), w') ∧
    events w' = events w ++ [EvSetConfig cfg; EvCreate m req]
                  ++ stream_events run_manager good ∧
    heap w' = heap w.
Proof.
  intros cfg m req Himp Hself Hkw Hgw Hall Hbad Hfuel.
  destruct fuel as [|fuel]; [lia|].
  rewrite iterate_S, (next_created_run _ _ _ _ _ _ _ Himp Hself Hkw).
  fold req cfg m. rewrite Hgw.
  destruct good as [|token good].
  - cbn [app]. unfold for_token. py_unfold. rewrite Hbad. cbn.
    eexists; split; [reflexivity|]. split; [|done].
    cbn. by rewrite ?app_nil_r.
  - apply Forall_cons in Hall as [Hne Hall].
    change ((token :: good) ++ bad :: rest)
      with (token :: (good ++ bad :: rest)).
    rewrite for_token_cons by done.
    rewrite iterate_suspended_bad by (done || simpl in Hfuel; lia).
    eexists; split; [reflexivity|]. split; [|done].
    cbn. by rewrite <- ?app_assoc.
Qed.

Lemma stream_stops_at_a_token_without_choices_witness :
  ∃ w',
    iterate 5 (_stream 0 "hi" None (Some {| run_id := "run-1" |}) ∅)
        choiceless_world
      = (Raise (IndexError "list index out of range"), w') ∧
    events w' = events choiceless_world ++
      [EvSetConfig (Config.mk [davinci]);
       EvCreate
         (portkey.set_config (Config.mk [davinci]) (module choiceless_world))
         (Build_Request "hi" true None ∅)]
      ++ [EvYield {| chunk_text := "Hel" |};
          EvOnLLMNewToken {| run_id := "run-1" |} "Hel"
            {| chunk_text := "Hel" |}] ∧
    heap w' = heap choiceless_world.
Proof.
  refine (stream_stops_at_a_token_without_choices choiceless_world 0
            (Portkey.mk (Some "single") (Some "text-davinci-003") ∅ false
               [davinci] portkey_module)
            "hi" None (Some {| run_id := "run-1" |}) ∅
            [ {| choices := [ {| text := Some "Hel" |} ] |} ]
            {| choices := [] |}
            [ {| choices := [ {| text := Some "lo" |} ] |} ]
            5 eq_refl eq_refl eq_refl eq_refl _ eq_refl _).
  - repeat constructor; discriminate.
  - simpl. lia.
Defined.

Lemma iterate_suspended_short run_manager :
  ∀ n tokens t chunk w,
    tokens !! n = Some t →
    Forall (λ t, choices t ≠ []) (take (S n) tokens) →
    iterate (S n) (GenSuspended run_manager chunk tokens) w =
      (Return None,
       with_events (events w ++ callback_events run_manager chunk
                      ++ stream_events run_manager (take n tokens)
                      ++ [EvYield (chunk_of t)]) w).
Proof.
  induction n as [|n IH]; intros tokens t chunk w Hn Hall;
    destruct tokens as [|token rest]; try done;
    cbn [take] in Hall; apply Forall_cons in Hall as [Hne Hall];
    rewrite iterate_S, (next_suspended _ _ _ _ _ Hne).
  - cbn in Hn. injection Hn as ->. cbn. by rewrite <- ?app_assoc.
  - cbn in Hn. rewrite (IH rest t _ _ Hn Hall).
    change (stream_events run_manager (take (S n) (token :: rest))) with
      ([EvYield (chunk_of token)]
         ++ callback_events run_manager (chunk_of token)
         ++ stream_events run_manager (take n rest)).
    destruct w; cbn. by rewrite <- ?app_assoc.
Qed.

(** X10.  A consumer that takes [n + 1] chunks and stops there was handed
    [n + 1] chunks, but the run manager has heard of the first [n] only:
    the report of a chunk is made when the generator is resumed for the
    next one. *)
Theorem stream_abandoned_misses_the_last_report
    w self o prompt stop run_manager kwargs tokens n t :
  let cfg := Config.mk (Portkey.llms o) in
  let m := portkey.set_config cfg (module w) in
  let req := Build_Request prompt true stop kwargs in
  import_portkey w = None →
  heap w !! self = Some o →
  repeated_keyword ["prompt"; "stream"; "stop"] kwargs = None →
  gateway w m req = inr tokens →
  tokens !! n = Some t →
  Forall (λ t, choices t ≠ []) (take (S n) tokens) →
  ∃ w',
    iterate (S n) (_stream self prompt stop run_manager kwargs) w
      = (Return None, w') ∧
    events w' = events w ++ [EvSetConfig cfg; EvCreate m req]
                  ++ stream_events run_manager (take n tokens)
                  ++ [EvYield (chunk_of t)].
Proof.
  intros cfg m req Himp Hself Hkw Hgw Hn Hall.
  rewrite iterate_S, (next_created_run _ _ _ _ _ _ _ Himp Hself Hkw).
  fold req cfg m. rewrite Hgw.
  destruct tokens as [|token rest]; [done|].
  cbn [take] in Hall. apply Forall_cons in Hall as [Hne Hall].
  rewrite for_token_cons by done.
  destruct n as [|n].
  - cbn in Hn. injection Hn as ->. cbn.
    eexists; split; [reflexivity|]. cbn. by rewrite <- ?app_assoc.
  - cbn in Hn. rewrite (iterate_suspended_short _ _ _ _ _ _ Hn Hall).
    eexists; split; [reflexivity|].
    change (stream_events run_manager (take (S n) (token :: rest))) with
      ([EvYield (chunk_of token)]
         ++ callback_events run_manager (chunk_of token)
         ++ stream_events run_manager (take n rest)).
    cbn. by rewrite <- ?app_assoc.
Qed.

Lemma stream_abandoned_misses_the_last_report_witness :
  ∃ w',
    iterate 2 (_stream 0 "hi" None (Some {| run_id := "run-1" |}) ∅)
        serving_world
      = (Return None, w') ∧
    events w' = events serving_world ++
      [EvSetConfig (Config.mk [davinci]);
       EvCreate
         (portkey.set_config (Config.mk [davinci]) (module serving_world))
         (Build_Request "hi" true None ∅)]
      ++ [EvYield {| chunk_text := "Hel" |};
          EvOnLLMNewToken {| run_id := "run-1" |} "Hel"
            {| chunk_text := "Hel" |}]
      ++ [EvYield {| chunk_text := "" |}].
Proof.
  refine (stream_abandoned_misses_the_last_report serving_world 0
            (Portkey.mk (Some "single") (Some "text-davinci-003") ∅ false
               [davinci] portkey_module)
            "hi" None (Some {| run_id := "run-1" |}) ∅
            [ {| choices := [ {| text := Some "Hel" |} ] |};
              {| choices := [ {| text := None |}; {| text := Some "x" |} ] |};
              {| choices := [ {| text := Some "lo" |} ] |} ]
            1 {| choices := [ {| text := None |}; {| text := Some "x" |} ] |}
            eq_refl eq_refl eq_refl eq_refl eq_refl _).
  repeat constructor; discriminate.
Defined.

(** ** Several adapters, one module *)

(** X11.  Two constructors in a row make two adapters, each with its own
    [mode] field, over one module: the module's [mode] is the second
    one's, and its [api_key] and [base_url] are the latest that were
    given. *)
Theorem second_constructor_takes_over_the_module
    w mode1 api_key1 base_url1 mode2 api_key2 base_url2 :
  let made :=
    (a ← __init__ mode1 api_key1 base_url1;
     b ← __init__ mode2 api_key2 base_url2;
     mret (a, b)) w in
  import_portkey w = None →
  made.1 = Return (length (heap w), S (length (heap w))) ∧
  portkey.mode (module made.2) = Some mode2 ∧
  portkey.api_key (module made.2) =
    latest api_key2 api_key1 (portkey.api_key (module w)) ∧
  portkey.base_url (module made.2) =
    latest base_url2 base_url1 (portkey.base_url (module w)) ∧
  Portkey.mode <$> heap made.2 !! length (heap w) = Some (Some mode1) ∧
  Portkey.mode <$> heap made.2 !! S (length (heap w)) = Some (Some mode2).
Proof.
  intros made Himp. unfold made. py_unfold.
  rewrite (init_run _ _ _ _ Himp).
  rewrite (init_run (initialised mode1 api_key1 base_url1 w)) by done.
  cbn. rewrite length_app. cbn. rewrite Nat.add_1_r.
  split; [done|]. split; [done|].
  split; [by destruct api_key2, api_key1|].
  split; [by destruct base_url2, base_url1|].
  split.
  - rewrite lookup_app_l by (rewrite length_app; cbn; lia).
    by rewrite alloc_lookup.
  - match goal with
    | |- context [(?h ++ [?o2]) !! S (length (heap w))] =>
        replace (S (length (heap w))) with (length h)
          by (rewrite length_app; cbn; lia)
    end.
    by rewrite alloc_lookup.
Qed.

Lemma second_constructor_takes_over_the_module_witness :
  (two_adapters sample_world).1 = Return (0, 1) ∧
  portkey.mode (module shared_world) = Some "fallback" ∧
  portkey.api_key (module shared_world) = Some "PORTKEY_API_KEY" ∧
  portkey.base_url (module shared_world) = None ∧
  Portkey.mode <$> heap shared_world !! 0 = Some (Some "single") ∧
  Portkey.mode <$> heap shared_world !! 1 = Some (Some "fallback").
Proof.
  exact (second_constructor_takes_over_the_module sample_world
           "single" (Some "PORTKEY_API_KEY") None "fallback" None None
           eq_refl).
Defined.

(** X12.  The request methods never touch the credentials: after
    [_client], [_call] or any iteration of [_stream], [portkey.api_key]
    and [portkey.base_url] are what they were, and so are the import
    environment and the gateway. *)
Theorem requests_keep_the_credentials
    w self prompt stop run_manager kwargs fuel :
  let kept w' :=
    portkey.api_key (module w') = portkey.api_key (module w) ∧
    portkey.base_url (module w') = portkey.base_url (module w) ∧
    import_portkey w' = import_portkey w ∧
    gateway w' = gateway w in
  kept (_client self w).2 ∧
  kept (_call self prompt stop run_manager kwargs w).2 ∧
  kept (iterate fuel (_stream self prompt stop run_manager kwargs) w).2.
Proof.
  intros kept. unfold kept.
  pose proof (_client_frame self w) as (_ & ? & ? & ? & ? & _).
  pose proof (_call_frame self prompt stop run_manager kwargs w)
    as (_ & ? & ? & ? & ? & _).
  pose proof (iterate_frame fuel
                (_stream self prompt stop run_manager kwargs) w)
    as (_ & ? & ? & ? & ? & _).
  done.
Qed.

(** ** What a life cannot change *)

Lemma perform_fields self op w o :
  heap w !! self = Some o →
  ∃ o',
    heap (perform self op w).2 !! self = Some o' ∧
    Portkey.mode o' = Portkey.mode o ∧
    Portkey.streaming o' = Portkey.streaming o ∧
    Portkey.llm o' = Portkey.llm o ∧
    Portkey._portkey o' = Portkey._portkey o ∧
    (∃ more, Portkey.llms o' = Portkey.llms o ++ more) ∧
    match Portkey.model o with
    | Some m => Portkey.model o' = Some m
    | None => True
    end.
Proof.
  intros Hself.
  destruct (perform_self self op w o Hself) as (o' & Hself' & Hstep).
  exists o'. split; [done|].
  assert (Hcases : o' = o ∨ ∃ params, o' = extended params o).
  { destruct op; try (by left).
    destruct ((perform self (OpAddLlms llm_params) w).1);
      [right; destruct Hstep; eauto|by left]. }
  destruct Hcases as [->|[params ->]].
  - repeat split; try done.
    + exists []. by rewrite app_nil_r.
    + by destruct (Portkey.model o).
  - cbn. repeat split; try done.
    + by exists params.
    + by destruct (Portkey.model o).
Qed.

Lemma perform_all_fields self ops :
  ∀ w o,
    heap w !! self = Some o →
    ∃ o',
      heap (perform_all self ops w).2 !! self = Some o' ∧
      Portkey.mode o' = Portkey.mode o ∧
      Portkey.streaming o' = Portkey.streaming o ∧
      Portkey.llm o' = Portkey.llm o ∧
      Portkey._portkey o' = Portkey._portkey o ∧
      (∃ more, Portkey.llms o' = Portkey.llms o ++ more) ∧
      match Portkey.model o with
      | Some m => Portkey.model o' = Some m
      | None => True
      end.
Proof.
  induction ops as [|op ops IH]; intros w o Hself.
  { exists o. cbn. repeat split; try done.
    - exists []. by rewrite app_nil_r.
    - by destruct (Portkey.model o). }
  cbn [perform_all].
  destruct (perform_fields self op w o Hself)
    as (o1 & Hself1 & Hmode & Hstr & Hllm & Hpk & [more Hllms] & Hmodel).
  destruct (perform self op w) as [ok w1]. cbn [snd] in Hself1.
  destruct (IH w1 o1 Hself1)
    as (o' & Hself' & Hmode' & Hstr' & Hllm' & Hpk' & [more' Hllms'] & Hmodel').
  destruct (perform_all self ops w1) as [log w2]. cbn [snd] in *.
  exists o'. repeat split; try congruence.
  - exists (more ++ more'). by rewrite Hllms', Hllms, app_assoc.
  - destruct (Portkey.model o) as [m|]; [|done].
    by rewrite Hmodel in Hmodel'.
Qed.

(** X13.  Nothing a program does with an adapter through its methods, and
    nothing that happens around it, changes its [mode], [streaming], [llm]
    or [_portkey]; [llms] only grows at its end; and a [model] that is set
    stays what it is. *)
Theorem life_keeps_what_is_set self ops w o :
  heap w !! self = Some o →
  ∃ o',
    heap (perform_all self ops w).2 !! self = Some o' ∧
    Portkey.mode o' = Portkey.mode o ∧
    Portkey.streaming o' = Portkey.streaming o ∧
    Portkey.llm o' = Portkey.llm o ∧
    Portkey._portkey o' = Portkey._portkey o ∧
    (∃ more, Portkey.llms o' = Portkey.llms o ++ more) ∧
    match Portkey.model o with
    | Some m => Portkey.model o' = Some m
    | None => True
    end.
Proof. exact (perform_all_fields self ops w o). Qed.

Lemma life_keeps_what_is_set_witness :
  ∃ o',
    heap (perform_all 0 sample_life serving_world).2 !! 0 = Some o' ∧
    Portkey.mode o' = Some "single" ∧
    Portkey.streaming o' = false ∧
    Portkey.llm o' = ∅ ∧
    Portkey._portkey o' = portkey_module ∧
    (∃ more, Portkey.llms o' = [davinci] ++ more) ∧
    Portkey.model o' = Some "text-davinci-003".
Proof.
  exact (life_keeps_what_is_set 0 sample_life serving_world
           (Portkey.mk (Some "single") (Some "text-davinci-003") ∅ false
              [davinci] portkey_module)
           eq_refl).
Defined.

Lemma perform_other self op w other o :
  other ≠ self →
  heap w !! other = Some o →
  heap (perform self op w).2 !! other = Some o.
Proof.
  intros Hne Hother.
  destruct op as [llm_params|prompt stop run_manager kwargs
                 |prompt stop run_manager kwargs fuel| |status
                 |mode api_key base_url]; cbn [perform];
    rewrite ?caught_snd.
  - destruct (import_portkey w) as [m|] eqn:Himp.
    { by rewrite (add_llms_missing _ _ _ _ Himp). }
    destruct (heap w !! self) as [o0|] eqn:Hself.
    2: { by rewrite (add_llms_dangling _ _ _ Himp Hself). }
    rewrite (add_llms_table _ _ _ _ Himp Hself).
    destruct (Portkey.model o0), (Portkey.llms o0 ++ as_list llm_params);
      cbn; rewrite ?list_lookup_insert_ne; done.
  - pose proof (_call_frame self prompt stop run_manager kwargs w) as Hf.
    apply only_configures_heap in Hf. by rewrite Hf.
  - pose proof (iterate_frame fuel
                  (_stream self prompt stop run_manager kwargs) w) as Hf.
    apply only_configures_heap in Hf. by rewrite Hf.
  - pose proof (_client_frame self w) as Hf.
    apply only_configures_heap in Hf. by rewrite Hf.
  - done.
  - destruct (import_portkey w) as [m|] eqn:Himp.
    + by rewrite (init_missing _ _ _ _ _ Himp).
    + rewrite (init_run _ _ _ _ Himp). cbn. by apply lookup_app_l_Some.
Qed.

(** X14.  Adapters do not reach into each other: whatever is done with
    the adapter at [self], every other adapter keeps all its fields.  (What
    they share is the module.) *)
Theorem life_leaves_other_adapters_alone self ops :
  ∀ w other o,
    other ≠ self →
    heap w !! other = Some o →
    heap (perform_all self ops w).2 !! other = Some o.
Proof.
  induction ops as [|op ops IH]; intros w other o Hne Hother; [done|].
  cbn [perform_all].
  pose proof (perform_other self op w other o Hne Hother) as Hstep.
  destruct (perform self op w) as [ok w1]. cbn [snd] in Hstep.
  specialize (IH w1 other o Hne Hstep).
  by destruct (perform_all self ops w1) as [log w2].
Qed.

Lemma life_leaves_other_adapters_alone_witness :
  heap (perform_all 0 sample_life shared_world).2 !! 1 =
    Some (Portkey.mk (Some "fallback") None ∅ false [] portkey_module).
Proof.
  refine (life_leaves_other_adapters_alone 0 sample_life shared_world 1
            (Portkey.mk (Some "fallback") None ∅ false [] portkey_module)
            _ eq_refl).
  discriminate.
Defined.
